(** * registration-api: a verification model of [registration-api/main.go]

    The relay accepts a wrapped registration over HTTP, normalises it
    ([processC2SWrapper]), publishes it on a ZMQ socket ([sendToZMQ]) and
    re-installs the socket's CURVE authentication on SIGHUP
    ([loadNewConfig], [setupAuth]).

    The Go code is embedded as programs of a small free monad [Prog] whose
    operations are the calls the code makes into its environment (logger,
    mutex, file system, TOML decoder, ZMQ auth subsystem, socket, HTTP
    response writer).  One interpreter runs a program alone ([run]); a step
    relation interleaves several of them ([step]). *)

From stdpp Require Import base strings list gmap.
From Stdlib Require Import ZArith Strings.Byte Ascii.

Local Open Scope Z_scope.
Local Open Scope string_scope.
Local Open Scope list_scope.

(** ** Go values *)

Definition bytes := list byte.

(** A Go [[]byte] whose capacity is never looked at: [None] is the nil
    slice, [Some l] a non-nil slice of contents [l]. *)
Definition byteslice := option bytes.

Definition len (b : byteslice) : Z :=
  match b with
  | None => 0
  | Some l => Z.of_nat (length l)
  end.

(** A Go slice with its backing array: [arr] is the array from the slice's
    first element up to its capacity, [slen] the slice's length.  A slice
    expression [s[:n]] is bounded by the capacity, not by the length. *)
Record GoSlice := mkSlice { arr : bytes; slen : nat }.

Definition cap (s : GoSlice) : nat := length (arr s).
Definition contents (s : GoSlice) : bytes := take (slen s) (arr s).

(** [s[:n]]: [None] stands for the run-time panic "slice bounds out of
    range". *)
Definition slice_to (n : nat) (s : GoSlice) : option GoSlice :=
  if decide (n ≤ cap s)%nat then Some (mkSlice (arr s) n) else None.

(** [str[:n]] on a string: bounded by the length. *)
Definition string_slice_to (n : nat) (str : string) : option string :=
  if decide (n ≤ String.length str)%nat then Some (String.substring 0 n str) else None.

(** Errors, by the package that made them. *)
Inductive error :=
  | Errorf (msg : string)       (* fmt.Errorf in this package *)
  | ProtoError (msg : string)   (* proto.Marshal / proto.Unmarshal *)
  | IOError (msg : string)      (* ioutil.ReadAll / ioutil.ReadFile *)
  | TomlError (msg : string)    (* toml.DecodeFile *)
  | NetError (msg : string)     (* net.SplitHostPort *)
  | ZmqError (msg : string).    (* zmq4 *)

(** ** encoding/hex *)

Definition hexdigit (n : N) : ascii :=
  match n with
  | 0 => "0" | 1 => "1" | 2 => "2" | 3 => "3" | 4 => "4" | 5 => "5"
  | 6 => "6" | 7 => "7" | 8 => "8" | 9 => "9" | 10 => "a" | 11 => "b"
  | 12 => "c" | 13 => "d" | 14 => "e" | _ => "f"
  end%N%char.

Fixpoint EncodeToString (src : bytes) : string :=
  match src with
  | [] => EmptyString
  | b :: rest =>
      String (hexdigit (Byte.to_N b / 16)%N)
        (String (hexdigit (Byte.to_N b mod 16)%N) (EncodeToString rest))
  end.

(** ** strings *)

(** [strings.Split(s, ",")[0]]: the text before the first comma. *)
Fixpoint split_first (s : string) : string :=
  match s with
  | EmptyString => EmptyString
  | String c rest => if Ascii.eqb c "," then EmptyString else String c (split_first rest)
  end.

Definition in_cutset (c : ascii) : bool := Ascii.eqb c " " || Ascii.eqb c "009".

Fixpoint TrimLeft (s : string) : string :=
  match s with
  | EmptyString => EmptyString
  | String c rest => if in_cutset c then TrimLeft rest else s
  end.

Fixpoint TrimRight (s : string) : string :=
  match s with
  | EmptyString => EmptyString
  | String c rest =>
      match TrimRight rest with
      | EmptyString => if in_cutset c then EmptyString else String c EmptyString
      | r => String c r
      end
  end.

(** [strings.Trim(s, " \t")]. *)
Definition Trim (s : string) : string := TrimRight (TrimLeft s).

(** ** net *)

(** [net.IP] is a byte slice: nil, 4 bytes or 16 bytes. *)
Definition IP := byteslice.

Definition v4InV6Prefix : bytes :=
  [x00; x00; x00; x00; x00; x00; x00; x00; x00; x00; xff; xff]%byte.

(** [net.IP.To16]. *)
Definition To16 (ip : IP) : IP :=
  match ip with
  | Some [a; b; c; d] => Some (v4InV6Prefix ++ [a; b; c; d])
  | Some l => if decide (length l = 16%nat) then Some l else None
  | None => None
  end.

(** The two parsers of package net that [parseIP] calls.  [SplitHostPort]
    returns [(host, port, err)]; [ParseIP] returns nil for text that is not
    an IP literal. *)
Class NetLib := {
  SplitHostPort : string → string * string * option error;
  ParseIP : string → IP;
}.

(** ** The protobuf package [pb] *)

(** Modelled from the spec: the generated package [pb] is not among the
    sources.  [RegistrationSource] is the enumerated origin tag; the getter
    of an unset field returns [Unspecified], and [API] is the tag this
    service stamps.  The remaining constructors stand for the other origins. *)
Inductive RegistrationSource :=
  | Unspecified
  | Detector
  | API
  | DetectorPrescan
  | BidirectionalAPI.

#[global] Instance RegistrationSource_eq_dec : EqDecision RegistrationSource.
Proof. solve_decision. Defined.

(** Modelled from the spec: the wrapper message [pb.C2SWrapper], with the
    four fields of the spec's data model.  Every field is optional: a byte
    field is a slice (nil when unset), the source and the payload are
    pointers (nil when unset).  [ClientToStation], the payload message, is
    opaque to this service. *)
Record C2SWrapper {ClientToStation : Type} := mkC2SWrapper {
  SharedSecret : byteslice;
  RegistrationPayload : option ClientToStation;
  RegistrationSource_ : option RegistrationSource;
  RegistrationAddress : byteslice;
}.
Arguments C2SWrapper : clear implicits.
Arguments mkC2SWrapper {ClientToStation}.

(** [proto.Marshal] and [proto.Unmarshal] at [*pb.C2SWrapper]: bytes or the
    text of the library's error. *)
Class ProtoLib (ClientToStation : Type) := {
  Marshal : C2SWrapper ClientToStation → bytes + string;
  Unmarshal : bytes → C2SWrapper ClientToStation + string;
}.

Section Getters.
Context {ClientToStation : Type}.
Implicit Type m : option (C2SWrapper ClientToStation).

(** The generated getters accept a nil receiver. *)
Definition GetSharedSecret m : byteslice :=
  match m with Some x => SharedSecret x | None => None end.

Definition GetRegistrationPayload m : option ClientToStation :=
  match m with Some x => RegistrationPayload x | None => None end.

Definition GetRegistrationSource m : RegistrationSource :=
  match m with
  | Some x => match RegistrationSource_ x with Some src => src | None => Unspecified end
  | None => Unspecified
  end.

Definition GetRegistrationAddress m : byteslice :=
  match m with Some x => RegistrationAddress x | None => None end.
End Getters.

(** ** The server's data *)

Definition regIDLen : Z := 16.
Definition SecretLength : Z := 32.

Record config := mkConfig {
  APIPort : Z;
  ZMQPort : Z;
  PrivateKeyPath : string;
  AuthType : string;
  AuthVerbose : bool;
  StationPublicKeys : list string;
  logClientIP : bool;
}.

(** A Z85 text, kept symbolic: [Z85encode data] is [zmq.Z85encode] of the
    string made of [data]. *)
Inductive z85 := Z85encode (data : bytes).

(** What the logger is asked to print, one constructor per call site, with
    the call's arguments. *)
Inductive LogEntry :=
  | LogReceived (method : string) (ip : option string) (contentLength : Z)
  | LogBadMethod (method : string)
  | LogShortContentLength (contentLength minimum : Z)
  | LogReadBodyFailed (err : error)
  | LogDecodeFailed (err : error)
  | LogMarshalFailed (err : error)
  | LogPublishFailed (err : error)
  | LogForwarding (secretPrefix : string) (source : RegistrationSource)
  | LogReloading
  | LogLoadConfigFailed (err : error)
  | LogPrivateKeyFailed (err : error)
  | LogAuthStartFailed (err : error)
  | LogStationPublicKeys (keys : list string)
  | LogSocketAuthFailed (err : error).

(** ** Programs *)

(** The calls a program makes into its environment, indexed by what they
    return. *)
Inductive Op : Type → Type :=
  | Printf (l : LogEntry) : Op unit
  | Lock : Op unit
  | Unlock : Op unit
  | GetConfig : Op config
  | DecodeFile : Op (option error)
  | ReadFile (path : string) : Op (GoSlice * option error)
  | AuthStop : Op unit
  | AuthSetVerbose (verbose : bool) : Op unit
  | AuthStart : Op (option error)
  | AuthAllow (domain : string) (addresses : list string) : Op unit
  | AuthCurveAdd (domain : string) (pubkeys : list string) : Op unit
  | ServerAuthCurve (domain : string) (secretKey : z85) : Op (option error)
  | SendBytes (message : byteslice) : Op (option error)
  | WriteHeader (code : Z) : Op unit
  | HttpError (msg : string) (code : Z) : Op unit.

(** A goroutine's remaining work: it returns, the process exits
    ([os.Exit], reached through [logger.Fatalln]), it panics, or it makes a
    call and goes on with the answer. *)
Inductive Prog (A : Type) : Type :=
  | Ret (a : A)
  | Exit (code : Z)
  | Panic (msg : string)
  | Do {R : Type} (op : Op R) (k : R → Prog A).
Arguments Ret {A}.
Arguments Exit {A}.
Arguments Panic {A}.
Arguments Do {A R}.

Fixpoint bind {A B} (p : Prog A) (f : A → Prog B) : Prog B :=
  match p with
  | Ret a => f a
  | Exit c => Exit c
  | Panic m => Panic m
  | Do op k => Do op (λ r, bind (k r) f)
  end.

#[global] Instance Prog_ret : MRet Prog := @Ret.
#[global] Instance Prog_bind : MBind Prog := λ A B f p, bind p f.

Definition call {R} (op : Op R) : Prog R := Do op Ret.

(** [logger.Fatalln]: print, then [os.Exit(1)]. *)
Definition Fatalln {A} (l : LogEntry) : Prog A := Do (Printf l) (λ _, Exit 1).

(** [defer d] around [p]: [d] runs when [p] returns and when it panics, not
    when the process exits. *)
Fixpoint defer_ {A} (d : Prog unit) (p : Prog A) : Prog A :=
  match p with
  | Ret a => bind d (λ _, Ret a)
  | Exit c => Exit c
  | Panic m => bind d (λ _, Panic m)
  | Do op k => Do op (λ r, defer_ d (k r))
  end.

(** net/http recovers a handler's panic: the goroutine ends, the process
    lives. *)
Fixpoint recover_ (p : Prog unit) : Prog unit :=
  match p with
  | Ret a => Ret a
  | Exit c => Exit c
  | Panic _ => Ret tt
  | Do op k => Do op (λ r, recover_ (k r))
  end.

(** ** main.go *)

(** The request as the handler reads it.  [Header] maps a canonical header
    name to its values; [Body] is what [ioutil.ReadAll(r.Body)] returns. *)
Record Request := mkRequest {
  Method : string;
  ContentLength : Z;
  Header : gmap string (list string);
  RemoteAddr : string;
  Body : bytes * option error;
}.

(** [http.Header.Get]: the first value of the key, or the empty string. *)
Definition Header_Get (h : gmap string (list string)) (key : string) : string :=
  match h !! key with
  | Some (v :: _) => v
  | _ => ""
  end.

Definition StatusNoContent : Z := 204.
Definition StatusBadRequest : Z := 400.
Definition StatusMethodNotAllowed : Z := 405.
Definition StatusInternalServerError : Z := 500.

Definition getRemoteAddr (r : Request) : string :=
  if decide (Header_Get (Header r) "X-Forwarded-For" ≠ "") then
    let addrList := Header_Get (Header r) "X-Forwarded-For" in
    Trim (split_first addrList)
  else RemoteAddr r.

(** [parseIP] returns a [*net.IP]: [None] is the nil pointer, [Some ip] a
    pointer to [ip], which may itself be the nil slice. *)
Definition parseIP `{NetLib} (addrPort : string) : option IP :=
  let '(host, _, err) := SplitHostPort addrPort in
  if bool_decide (err ≠ None) || bool_decide (host = "") then
    let addr := ParseIP addrPort in
    match addr with
    | None => None
    | Some _ => Some addr
    end
  else
    let addr := ParseIP host in
    Some addr.

(** Lines 104-108 of [register]: the address bytes handed to
    [processC2SWrapper]. *)
Definition clientAddrBytesOf `{NetLib} (requestIP : string) : byteslice :=
  let clientAddr := parseIP requestIP in
  let clientAddrBytes := Some (replicate 16 x00%byte) in
  match clientAddr with
  | Some ip => To16 ip
  | None => clientAddrBytes
  end.

Section Processing.
Context {ClientToStation : Type} `{!ProtoLib ClientToStation}.

(** Lines 149-169 of [processC2SWrapper]: the message that is
    marshalled. *)
Definition outboundWrapper (clientToAPIProto : option (C2SWrapper ClientToStation))
    (clientAddr : byteslice) : C2SWrapper ClientToStation :=
  let source :=
    if decide (GetRegistrationSource clientToAPIProto = Unspecified) then API
    else GetRegistrationSource clientToAPIProto in
  let address :=
    if bool_decide (GetRegistrationAddress clientToAPIProto = None)
       || bool_decide (GetRegistrationSource clientToAPIProto = API)
    then clientAddr
    else GetRegistrationAddress clientToAPIProto in
  {| RegistrationSource_ := Some source;
     RegistrationAddress := address;
     SharedSecret := GetSharedSecret clientToAPIProto;
     RegistrationPayload := GetRegistrationPayload clientToAPIProto |}.

(** [proto.Marshal(payload)] as the Go pair it returns. *)
Definition protoMarshal (m : C2SWrapper ClientToStation) : byteslice * option error :=
  match Marshal m with
  | inl b => (Some b, None)
  | inr e => (None, Some (ProtoError e))
  end.

Definition processC2SWrapper (clientToAPIProto : option (C2SWrapper ClientToStation))
    (clientAddr : byteslice) : Prog (byteslice * option error) :=
  match clientToAPIProto with
  | None => mret (None, Some (Errorf "unable to process nil C2SWrapper"))
  | Some _ =>
      if decide (len (GetSharedSecret clientToAPIProto) < regIDLen `quot` 2) then
        mret (None, Some (Errorf "shared secret undefined or insufficient length"))
      else
        let payload := outboundWrapper clientToAPIProto clientAddr in
        match string_slice_to (Z.to_nat regIDLen)
                (EncodeToString (default [] (GetSharedSecret (Some payload)))) with
        | None => Panic "slice bounds out of range"
        | Some prefix =>
            call (Printf (LogForwarding prefix (GetRegistrationSource (Some payload))));;
            mret (protoMarshal payload)
        end
  end.

(** The server value a handler holds: the swappable sender.  The mutex,
    the configuration and the socket are shared and live in the [World]. *)
Record server := mkServer {
  messageAccepter : byteslice → Prog (option error);
}.

Definition MinimumRequestLength : Z := SecretLength + 1.

Definition register `{NetLib} (s : server) (r : Request) : Prog unit :=
  let requestIP := getRemoteAddr r in
  cfg ← call GetConfig;
  (if logClientIP cfg
   then call (Printf (LogReceived (Method r) (Some requestIP) (ContentLength r)))
   else call (Printf (LogReceived (Method r) None (ContentLength r))));;
  if decide (Method r ≠ "POST") then
    call (Printf (LogBadMethod (Method r)));;
    call (WriteHeader StatusMethodNotAllowed)
  else if decide (ContentLength r < MinimumRequestLength) then
    call (Printf (LogShortContentLength (ContentLength r) MinimumRequestLength));;
    call (HttpError "Payload too small" StatusBadRequest)
  else
    let '(in_, err) := Body r in
    match err with
    | Some e =>
        call (Printf (LogReadBodyFailed e));;
        call (HttpError "Failed to read request body" StatusBadRequest)
    | None =>
        match Unmarshal in_ with
        | inr e =>
            call (Printf (LogDecodeFailed (ProtoError e)));;
            call (HttpError "Failed to decode protobuf body" StatusBadRequest)
        | inl payload =>
            let clientAddrBytes := clientAddrBytesOf requestIP in
            '(zmqPayload, err) ← processC2SWrapper (Some payload) clientAddrBytes;
            match err with
            | Some e =>
                call (Printf (LogMarshalFailed e));;
                call (WriteHeader StatusInternalServerError)
            | None =>
                err ← messageAccepter s zmqPayload;
                match err with
                | Some e =>
                    call (Printf (LogPublishFailed e));;
                    call (WriteHeader StatusInternalServerError)
                | None => call (WriteHeader StatusNoContent)
                end
            end
        end
    end.
End Processing.
Arguments server : clear implicits.

Definition sendToZMQ (message : byteslice) : Prog (option error) :=
  call Lock;;
  err ← call (SendBytes message);
  call Unlock;;
  mret err.

Definition setupAuth : Prog unit :=
  cfg ← call GetConfig;
  if decide (AuthType cfg = "CURVE") then
    '(privkeyBytes, err) ← call (ReadFile (PrivateKeyPath cfg));
    match err with
    | Some e => Fatalln (LogPrivateKeyFailed e)
    | None => mret tt
    end;;
    key ← match slice_to 32 privkeyBytes with
          | None => Panic "slice bounds out of range"
          | Some k => mret k
          end;
    let privkey := Z85encode (contents key) in
    call (AuthSetVerbose (AuthVerbose cfg));;
    err ← call AuthStart;
    match err with
    | Some e => Fatalln (LogAuthStartFailed e)
    | None => mret tt
    end;;
    call (Printf (LogStationPublicKeys (StationPublicKeys cfg)));;
    call (AuthAllow "*" []);;
    call (AuthCurveAdd "*" (StationPublicKeys cfg));;
    err ← call (ServerAuthCurve "*" privkey);
    match err with
    | Some e => Fatalln (LogSocketAuthFailed e)
    | None => mret tt
    end
  else mret tt.

Definition loadNewConfig : Prog unit :=
  call Lock;;
  defer_ (call Unlock)
    (call (Printf LogReloading);;
     err ← call DecodeFile;
     match err with
     | Some e => Fatalln (LogLoadConfigFailed e)
     | None => mret tt
     end;;
     call AuthStop;;
     setupAuth).

(** The goroutine of [setupReloadHandler], for [n] reload signals. *)
Fixpoint reloadLoop (n : nat) : Prog unit :=
  match n with
  | O => mret tt
  | S n' => loadNewConfig;; reloadLoop n'
  end.

(** ** The environment *)

(** Modelled from the spec: the authentication subsystem of the ZMQ binding
    (package zmq4) is not among the sources.  It is process-global state: a
    running flag, the verbosity flag, and per ZAP domain the allowed
    addresses and the allowed CURVE public keys. *)
Record ZmqAuth := mkZmqAuth {
  auth_init : bool;
  auth_verbose : bool;
  auth_allow : gmap string (gset string);
  auth_pubkeys : gmap string (gset string);
}.

(** Modelled from the spec: the socket's security options, as
    [ServerAuthCurve] sets them. *)
Record Socket := mkSocket {
  zap_domain : option string;
  curve_server : bool;
  curve_secretkey : option z85;
}.

(** What the outside world answers: the files [ioutil.ReadFile] can read
    (each as the slice the call returns, spare capacity included), what
    [toml.DecodeFile] makes of the server's configuration, and whether the
    ZMQ calls fail. *)
Record Env := mkEnv {
  fs : gmap string GoSlice;
  tomlDecode : config → config * option error;
  authStartErr : option error;
  serverAuthErr : option error;
  transport : byteslice → option error;
}.

Record World := mkWorld {
  mutex : bool;
  cfg : config;
  auth : ZmqAuth;
  sock : Socket;
  env : Env;
}.

Definition set_mutex (b : bool) (w : World) : World :=
  mkWorld b (cfg w) (auth w) (sock w) (env w).
Definition set_cfg (c : config) (w : World) : World :=
  mkWorld (mutex w) c (auth w) (sock w) (env w).
Definition set_auth (a : ZmqAuth) (w : World) : World :=
  mkWorld (mutex w) (cfg w) a (sock w) (env w).
Definition set_sock (s : Socket) (w : World) : World :=
  mkWorld (mutex w) (cfg w) (auth w) s (env w).
Definition set_env (e : Env) (w : World) : World :=
  mkWorld (mutex w) (cfg w) (auth w) (sock w) e.

(** Modelled from the spec: the reset.  Stopping a running subsystem drops
    every installed policy; stopping one that is not running does nothing. *)
Definition zmq_AuthStop (a : ZmqAuth) : ZmqAuth :=
  if auth_init a then mkZmqAuth false (auth_verbose a) ∅ ∅ else a.

Definition zmq_AuthSetVerbose (verbose : bool) (a : ZmqAuth) : ZmqAuth :=
  mkZmqAuth (auth_init a) verbose (auth_allow a) (auth_pubkeys a).

(** Modelled from the spec: the install is not idempotent.  Starting a
    running subsystem is an error; otherwise it starts unless the
    environment refuses. *)
Definition zmq_AuthStart (failure : option error) (a : ZmqAuth) : option error * ZmqAuth :=
  if auth_init a then (Some (ZmqError "Auth is already running"), a)
  else match failure with
       | Some e => (Some e, a)
       | None => (None, mkZmqAuth true (auth_verbose a) (auth_allow a) (auth_pubkeys a))
       end.

Definition zmq_AuthAllow (domain : string) (addresses : list string) (a : ZmqAuth) : ZmqAuth :=
  mkZmqAuth (auth_init a) (auth_verbose a)
    (<[domain := default ∅ (auth_allow a !! domain) ∪ list_to_set addresses]> (auth_allow a))
    (auth_pubkeys a).

Definition zmq_AuthCurveAdd (domain : string) (pubkeys : list string) (a : ZmqAuth) : ZmqAuth :=
  mkZmqAuth (auth_init a) (auth_verbose a) (auth_allow a)
    (<[domain := default ∅ (auth_pubkeys a !! domain) ∪ list_to_set pubkeys]> (auth_pubkeys a)).

Definition zmq_ServerAuthCurve (failure : option error) (domain : string) (secretKey : z85)
    (s : Socket) : option error * Socket :=
  match failure with
  | Some e => (Some e, s)
  | None => (None, mkSocket (Some domain) true (Some secretKey))
  end.

(** The public keys the subsystem lets in on [domain]: none unless it runs. *)
Definition allowed_keys (domain : string) (a : ZmqAuth) : gset string :=
  if auth_init a then default ∅ (auth_pubkeys a !! domain) else ∅.

(** [toml.DecodeFile(..., &s)] writes the exported fields only:
    [logClientIP] keeps its value. *)
Definition decodeInto (e : Env) (c : config) : config * option error :=
  let '(c', err) := tomlDecode e c in
  (mkConfig (APIPort c') (ZMQPort c') (PrivateKeyPath c') (AuthType c') (AuthVerbose c')
     (StationPublicKeys c') (logClientIP c), err).

(** The answer to one call: it is done, it has to wait (a locked mutex), or
    the run time stops the process. *)
Inductive Reply (R : Type) :=
  | Done (r : R) (w : World)
  | Wait
  | Throw (msg : string).
Arguments Done {R}.
Arguments Wait {R}.
Arguments Throw {R}.

Definition handle {R} (op : Op R) (w : World) : Reply R :=
  match op with
  | Printf _ => Done tt w
  | Lock => if mutex w then Wait else Done tt (set_mutex true w)
  | Unlock =>
      if mutex w then Done tt (set_mutex false w)
      else Throw "sync: unlock of unlocked mutex"
  | GetConfig => Done (cfg w) w
  | DecodeFile =>
      let '(c, err) := decodeInto (env w) (cfg w) in Done err (set_cfg c w)
  | ReadFile path =>
      match fs (env w) !! path with
      | Some data => Done (data, None) w
      | None => Done (mkSlice [] 0, Some (IOError "no such file or directory")) w
      end
  | AuthStop => Done tt (set_auth (zmq_AuthStop (auth w)) w)
  | AuthSetVerbose v => Done tt (set_auth (zmq_AuthSetVerbose v (auth w)) w)
  | AuthStart =>
      let '(err, a) := zmq_AuthStart (authStartErr (env w)) (auth w) in
      Done err (set_auth a w)
  | AuthAllow d l => Done tt (set_auth (zmq_AuthAllow d l (auth w)) w)
  | AuthCurveAdd d l => Done tt (set_auth (zmq_AuthCurveAdd d l (auth w)) w)
  | ServerAuthCurve d k =>
      let '(err, s) := zmq_ServerAuthCurve (serverAuthErr (env w)) d k (sock w) in
      Done err (set_sock s w)
  | SendBytes m => Done (transport (env w) m) w
  | WriteHeader _ => Done tt w
  | HttpError _ _ => Done tt w
  end.

(** A call with its answer. *)
Inductive Event :=
  | Ev {R : Type} (op : Op R) (r : R).

(** [GetConfig] reads the server's own fields: it is no call into the
    environment and leaves no event. *)
Definition observable {R} (op : Op R) : bool :=
  match op with GetConfig => false | _ => true end.

Definition record {R} (op : Op R) (r : R) : list Event :=
  if observable op then [Ev op r] else [].

(** How a program run alone ends. *)
Inductive Outcome (A : Type) :=
  | Returned (a : A)
  | Exited (code : Z)
  | Panicked (msg : string)
  | Deadlocked
  | Crashed (msg : string).
Arguments Returned {A}.
Arguments Exited {A}.
Arguments Panicked {A}.
Arguments Deadlocked {A}.
Arguments Crashed {A}.

(** One goroutine run alone to its end: the outcome, the world it leaves
    and the calls it made, in order. *)
Fixpoint run {A} (p : Prog A) (w : World) : Outcome A * World * list Event :=
  match p with
  | Ret a => (Returned a, w, [])
  | Exit c => (Exited c, w, [])
  | Panic m => (Panicked m, w, [])
  | Do op k =>
      match handle op w with
      | Done r w' =>
          let '(o, w'', t) := run (k r) w' in (o, w'', record op r ++ t)
      | Wait => (Deadlocked, w, [])
      | Throw m => (Crashed m, w, [])
      end
  end.

Definition outcome_of {A} (x : Outcome A * World * list Event) : Outcome A := (x.1).1.
Definition world_of {A} (x : Outcome A * World * list Event) : World := (x.1).2.
Definition trace_of {A} (x : Outcome A * World * list Event) : list Event := x.2.

(** ** Goroutines running together *)

(** The process: the shared world, each goroutine's remaining program,
    whether the process has stopped, and the calls made so far, each with
    the goroutine that made it. *)
Record System := mkSystem {
  world : World;
  threads : list (Prog unit);
  halted : bool;
  history : list (nat * Event);
}.

Definition halt (σ : System) : System :=
  mkSystem (world σ) (threads σ) true (history σ).

(** One goroutine makes its next call, atomically.  A goroutine at [Lock]
    moves only when the mutex is free.  [os.Exit], a panic nobody recovers
    and a run-time error stop the whole process. *)
Inductive step : System → System → Prop :=
  | step_call (σ : System) (i : nat) {R} (op : Op R) (k : R → Prog unit) (r : R) (w' : World) :
      halted σ = false →
      threads σ !! i = Some (Do op k) →
      handle op (world σ) = Done r w' →
      step σ (mkSystem w' (<[i := k r]> (threads σ)) false
                (history σ ++ map (pair i) (record op r)))
  | step_throw (σ : System) (i : nat) {R} (op : Op R) (k : R → Prog unit) (m : string) :
      halted σ = false →
      threads σ !! i = Some (Do op k) →
      handle op (world σ) = Throw m →
      step σ (halt σ)
  | step_exit (σ : System) (i : nat) (c : Z) :
      halted σ = false →
      threads σ !! i = Some (Exit c) →
      step σ (halt σ)
  | step_panic (σ : System) (i : nat) (m : string) :
      halted σ = false →
      threads σ !! i = Some (Panic m) →
      step σ (halt σ).

(** The same step as a function: goroutine [i] is scheduled next.  Nothing
    happens when it cannot move. *)
Definition fire (i : nat) (σ : System) : System :=
  if halted σ then σ
  else match threads σ !! i with
       | Some (Do op k) =>
           match handle op (world σ) with
           | Done r w' =>
               mkSystem w' (<[i := k r]> (threads σ)) false
                 (history σ ++ map (pair i) (record op r))
           | Wait => σ
           | Throw _ => halt σ
           end
       | Some (Exit _) => halt σ
       | Some (Panic _) => halt σ
       | Some (Ret _) => σ
       | None => σ
       end.

Definition schedule (order : list nat) (σ : System) : System :=
  foldl (λ σ i, fire i σ) σ order.

(** The goroutines [main] leaves running: one per request being served,
    with [sendToZMQ] as the sender (line 269), and the reload listener. *)
Inductive goroutine :=
  | Handler (r : Request)
  | Reloader (signals : nat).

Section Goroutines.
Context {ClientToStation : Type} `{!ProtoLib ClientToStation} `{!NetLib}.

Definition program_of (g : goroutine) : Prog unit :=
  match g with
  | Handler r => recover_ (register (mkServer sendToZMQ) r)
  | Reloader n => reloadLoop n
  end.

Definition spawn (w : World) (gs : list goroutine) : System :=
  mkSystem w (map program_of gs) false [].
End Goroutines.

(** The calls that touch the shared socket, its authentication or the
    configuration a reload rewrites. *)
Definition critical {R} (op : Op R) : bool :=
  match op with
  | SendBytes _ | DecodeFile | ReadFile _ | AuthStop | AuthSetVerbose _ | AuthStart
  | AuthAllow _ _ | AuthCurveAdd _ _ | ServerAuthCurve _ _ => true
  | _ => false
  end.

(** Who holds the mutex after a call by goroutine [i]. *)
Definition next_holder {R} (i : nat) (op : Op R) (holder : option nat) : option nat :=
  match op with
  | Lock => Some i
  | Unlock => None
  | _ => holder
  end.

(** What a call by goroutine [i] needs of the holder: the mutex is free at
    [Lock], the caller's at [Unlock] and at every critical call. *)
Definition allowed_at {R} (i : nat) (op : Op R) (holder : option nat) : Prop :=
  match op with
  | Lock => holder = None
  | Unlock => holder = Some i
  | _ => critical op = true → holder = Some i
  end.

Fixpoint holder_after (holder : option nat) (h : list (nat * Event)) : option nat :=
  match h with
  | [] => holder
  | (i, Ev op _) :: rest => holder_after (next_holder i op holder) rest
  end.

(** A history in which the mutex has one holder at a time and every
    critical call is made by the holder. *)
Fixpoint exclusive_from (holder : option nat) (h : list (nat * Event)) : Prop :=
  match h with
  | [] => True
  | (i, Ev op _) :: rest =>
      allowed_at i op holder ∧ exclusive_from (next_holder i op holder) rest
  end.

(** A goroutine's locking discipline, read off its program: [locks a b c p]
    says that [p], entered holding the mutex iff [a], locks only when it
    does not hold the mutex, unlocks and makes critical calls only when it
    does, returns holding it iff [b] and panics holding it iff [c]. *)
Definition permit {R} (op : Op R) (holding : bool) : option bool :=
  match op with
  | Lock => if holding then None else Some true
  | Unlock => if holding then Some false else None
  | _ => if critical op && negb holding then None else Some holding
  end.

Fixpoint locks {A} (a b c : bool) (p : Prog A) : Prop :=
  match p with
  | Ret _ => a = b
  | Exit _ => True
  | Panic _ => a = c
  | Do op k =>
      match permit op a with
      | Some a' => ∀ r, locks a' b c (k r)
      | None => False
      end
  end.

(** What every reachable state of the process satisfies: the history is
    exclusive, the mutex is locked iff the history has a holder, and each
    goroutine's remaining program keeps the discipline from where it
    stands. *)
Definition consistent (σ : System) : Prop :=
  let holder := holder_after None (history σ) in
  exclusive_from None (history σ)
  ∧ mutex (world σ) = bool_decide (holder ≠ None)
  ∧ ∀ i p, threads σ !! i = Some p → locks (bool_decide (holder = Some i)) false false p.

(** ** A concrete environment, for running the model *)

Module GoNet.
(** Package net on the inputs the examples use: [SplitHostPort] as the
    library has it, and [ParseIP] for dotted-decimal IPv4 text.  IPv6
    literals are not needed by the examples; this [ParseIP] answers nil
    on them. *)

Fixpoint IndexByte (s : string) (c : ascii) : option nat :=
  match s with
  | EmptyString => None
  | String x rest =>
      if Ascii.eqb x c then Some O else S <$> IndexByte rest c
  end.

Fixpoint last (s : string) (c : ascii) : option nat :=
  match s with
  | EmptyString => None
  | String x rest =>
      match last rest c with
      | Some i => Some (S i)
      | None => if Ascii.eqb x c then Some O else None
      end
  end.

Definition from (n : nat) (s : string) : string :=
  String.substring n (String.length s - n) s.

Definition addrErr (why : string) : string * string * option error :=
  ("", "", Some (NetError why)).

Definition SplitHostPort (hostport : string) : string * string * option error :=
  match last hostport ":" with
  | None => addrErr "missing port in address"
  | Some i =>
      let bracketed :=
        match hostport with String "[" _ => true | _ => false end in
      let checked : (string * nat * nat) + (string * string * option error) :=
        if bracketed then
          match IndexByte hostport "]" with
          | None => inr (addrErr "missing ']' in address")
          | Some e =>
              if decide (S e = String.length hostport) then
                inr (addrErr "missing port in address")
              else if decide (S e = i) then
                inl (String.substring 1 (e - 1) hostport, 1%nat, S e)
              else if bool_decide (String.get (S e) hostport = Some ":"%char) then
                inr (addrErr "too many colons in address")
              else inr (addrErr "missing port in address")
          end
        else
          let host := String.substring 0 i hostport in
          if bool_decide (IndexByte host ":" ≠ None) then
            inr (addrErr "too many colons in address")
          else inl (host, O, O) in
      match checked with
      | inr e => e
      | inl (host, j, k) =>
          if bool_decide (IndexByte (from j hostport) "[" ≠ None) then
            addrErr "unexpected '[' in address"
          else if bool_decide (IndexByte (from k hostport) "]" ≠ None) then
            addrErr "unexpected ']' in address"
          else (host, from (S i) hostport, None)
      end
  end.

Definition digit (c : ascii) : option N :=
  let n := N_of_ascii c in
  if ((48 <=? n) && (n <=? 57))%N then Some (n - 48)%N else None.

(** One field of a dotted quad: decimal digits, no leading zero on a
    field of more than one digit, at most 255. *)
Fixpoint field (s : string) (acc : N) : option N :=
  match s with
  | EmptyString => Some acc
  | String c rest =>
      d ← digit c;
      if (255 <? 10 * acc + d)%N then None else field rest (10 * acc + d)%N
  end.

Definition octet (s : string) : option byte :=
  match s with
  | EmptyString => None
  | String "0" (String _ _) => None
  | _ => n ← field s 0%N; Byte.of_N n
  end.

Fixpoint fields (s : string) (cur : string) : list string :=
  match s with
  | EmptyString => [cur]
  | String c rest =>
      if Ascii.eqb c "." then cur :: fields rest ""
      else fields rest (cur +:+ String c "")
  end.

Definition parseIPv4 (s : string) : IP :=
  match fields s "" with
  | [a; b; c; d] =>
      a ← octet a; b ← octet b; c ← octet c; d ← octet d;
      Some (v4InV6Prefix ++ [a; b; c; d])
  | _ => None
  end.

Definition ParseIP (s : string) : IP :=
  match IndexByte s ".", IndexByte s ":" with
  | Some i, Some j => if decide (i < j)%nat then parseIPv4 s else None
  | Some _, None => parseIPv4 s
  | _, _ => None
  end.

Definition lib : NetLib := Build_NetLib SplitHostPort ParseIP.
End GoNet.

Module Sample.
(** The payload message is opaque to the service: here it is its bytes. *)
Definition ClientToStation : Type := bytes.

(** A stand-in codec.  The examples need bytes that decode to a wrapper
    and a wrapper that encodes to bytes; the protobuf wire format plays
    no part in them.  A body is the secret's length in one byte, the
    secret, then the payload. *)
Definition marshal (m : C2SWrapper ClientToStation) : bytes + string :=
  inl (default [] (SharedSecret m) ++ default [] (RegistrationAddress m)
         ++ default [] (RegistrationPayload m)).

Definition unmarshal (b : bytes) : C2SWrapper ClientToStation + string :=
  match b with
  | [] => inr "unexpected EOF"
  | n :: rest =>
      let k := N.to_nat (Byte.to_N n) in
      if decide (length rest < k)%nat then inr "unexpected EOF"
      else inl (mkC2SWrapper (Some (take k rest)) (Some (drop k rest)) None None)
  end.

Definition codec : ProtoLib ClientToStation := Build_ProtoLib _ marshal unmarshal.

Definition secret : bytes := replicate 32 x2a.
Definition weak_secret : bytes := replicate 7 x2a.
Definition vsp : bytes := [x01; x02; x03].
Definition observed : bytes :=
  v4InV6Prefix ++ [xcb; x00; x71; x05].             (* 203.0.113.5 *)
Definition claimed : bytes := [xc6; x33; x64; x07].  (* 198.51.100.7 *)

Definition station_key_old : string := "old-station-public-key-z85-0000000000000".
Definition station_key_new : string := "new-station-public-key-z85-0000000000000".

Definition conf (keys : list string) : config :=
  mkConfig 8080 5591 "/var/lib/conjure/privkey" "CURVE" false keys false.

Definition conf_no_auth : config :=
  mkConfig 8080 5591 "/var/lib/conjure/privkey" "NONE" false [station_key_old] false.

(** A 32-byte key file, read into a buffer of 512 bytes. *)
Definition keyfile : GoSlice := mkSlice (replicate 32 x11 ++ replicate 480 x00) 32.

(** A 5-byte key file, read into a buffer of 512 bytes. *)
Definition short_keyfile : GoSlice := mkSlice (replicate 5 x11 ++ replicate 507 x00) 5.

(** A 5-byte key file in a buffer with no spare room. *)
Definition tight_keyfile : GoSlice := mkSlice (replicate 5 x11) 5.

(** The environment while the configuration file holds [c] and the key
    file reads as [key]. *)
Definition env_with (c : config) (key : GoSlice) : Env :=
  mkEnv {[ "/var/lib/conjure/privkey" := key ]} (λ _, (c, None)) None None (λ _, None).

Definition env_busy (c : config) : Env :=
  mkEnv {[ "/var/lib/conjure/privkey" := keyfile ]} (λ _, (c, None)) None None
    (λ _, Some (ZmqError "resource temporarily unavailable")).

Definition no_auth : ZmqAuth := mkZmqAuth false false ∅ ∅.
Definition no_sock : Socket := mkSocket None false None.

(** The world at process start: nothing installed, the mutex free. *)
Definition boot (c : config) (e : Env) : World := mkWorld false c no_auth no_sock e.

Definition w0 : World := boot (conf [station_key_old]) (env_with (conf [station_key_old]) keyfile).

Definition wrapper_plain : C2SWrapper ClientToStation :=
  mkC2SWrapper (Some secret) (Some vsp) None None.

Definition wrapper_weak : C2SWrapper ClientToStation :=
  mkC2SWrapper (Some weak_secret) (Some vsp) None None.

(** No source given, but an address. *)
Definition wrapper_addr_only : C2SWrapper ClientToStation :=
  mkC2SWrapper (Some secret) (Some vsp) None (Some claimed).

(** An explicit non-API source and an address. *)
Definition wrapper_detector : C2SWrapper ClientToStation :=
  mkC2SWrapper (Some secret) (Some vsp) (Some Detector) (Some claimed).

Definition post (xff : list string) (body : bytes) : Request :=
  mkRequest "POST" (Z.of_nat (length body))
    (match xff with [] => ∅ | _ => {[ "X-Forwarded-For" := xff ]} end)
    "192.0.2.1:40000" (body, None).

Definition req_ok : Request := post ["203.0.113.5"] ([x20] ++ secret ++ vsp).
Definition req_hostname : Request := post ["example.com:443"] ([x20] ++ secret ++ vsp).
Definition req_weak : Request := post [] ([x07] ++ weak_secret ++ replicate 30 x00).
Definition req_short : Request := post [] ([x0a] ++ replicate 10 x2a).
Definition req_get : Request :=
  mkRequest "GET" 0 ∅ "192.0.2.1:40000" ([], None).

(** The server after [main] has set up authentication from [w0]. *)
Definition started : World := world_of (run setupAuth w0).

(** The operator replaces the old station key by the new one. *)
Definition env_new : Env := env_with (conf [station_key_new]) keyfile.

Definition w_no_auth : World := boot conf_no_auth (env_with conf_no_auth keyfile).
Definition w_short_key : World :=
  boot (conf [station_key_old]) (env_with (conf [station_key_old]) short_keyfile).
Definition w_tight_key : World :=
  boot (conf [station_key_old]) (env_with (conf [station_key_old]) tight_keyfile).

(** One request being served while one reload signal arrives. *)
Definition serving : System :=
  @spawn ClientToStation codec GoNet.lib started [Handler req_ok; Reloader 1].

(** The handler logs, the reloader locks and starts reloading, the
    handler has to wait at its own [Lock], the reloader finishes, the
    handler sends. *)
Definition order : list nat :=
  [0; 0; 1; 1; 0; 1; 0; 1; 1; 1; 1; 1; 1; 1; 1; 1; 1; 1; 0; 0; 0; 0; 0]%nat.
End Sample.

Module Cases.
(** Further inputs for running the model. *)

(** X-Forwarded-For whose first entry is blank. *)
Definition req_blank : Request := Sample.post [" , 10.0.0.1"] ([x20] ++ Sample.secret ++ Sample.vsp).

(** The request of [Sample.req_ok], seen from another address. *)
Definition req_elsewhere : Request :=
  Sample.post ["198.51.100.7"] ([x20] ++ Sample.secret ++ Sample.vsp).

(** The request of [Sample.req_ok], from another peer behind the same
    forwarded-for entry. *)
Definition req_other_peer : Request :=
  mkRequest "POST" 36 {[ "X-Forwarded-For" := ["203.0.113.5"; "10.1.1.1"] ]}
    "198.51.100.99:1234" ([x20] ++ Sample.secret ++ Sample.vsp, None).

(** The server while a reload holds the mutex. *)
Definition w_locked : World := set_mutex true Sample.started.

(** The configuration file has become unreadable. *)
Definition env_bad_config : Env :=
  mkEnv {[ "/var/lib/conjure/privkey" := Sample.keyfile ]}
    (λ c, (c, Some (TomlError "expected key separator"))) None None (λ _, None).

Definition w_bad_config : World := set_env env_bad_config Sample.started.

(** The operator has rotated the station key. *)
Definition w_rotated : World := set_env Sample.env_new Sample.started.

(** The operator has switched authentication off. *)
Definition w_switched_off : World :=
  set_env (Sample.env_with Sample.conf_no_auth Sample.keyfile) Sample.started.

(** Two requests, one of them with a weak secret, and no reload signal. *)
Definition busy : System :=
  @spawn Sample.ClientToStation Sample.codec GoNet.lib Sample.started
    ((Handler <$> [Sample.req_ok; Sample.req_weak]) ++ [Reloader 0]).

Definition turns : list nat := [0; 1; 0; 1; 0; 1; 0; 1; 0; 0; 0; 2]%nat.
End Cases.

(** ** Reading traces *)

(** The log line of an accepted wrapper: the first 16 hex digits of its
    secret and the source it is forwarded with. *)
Definition forwardingLine {ClientToStation} (m : C2SWrapper ClientToStation) : Event :=
  Ev (Printf (LogForwarding
                (String.substring 0 16 (EncodeToString (default [] (SharedSecret m))))
                (if decide (GetRegistrationSource (Some m) = Unspecified) then API
                 else GetRegistrationSource (Some m)))) tt.

(** The messages handed to the socket, in order. *)
Definition sent_by {R} (op : Op R) : list byteslice :=
  match op with SendBytes m => [m] | _ => [] end.

Fixpoint sent (t : list Event) : list byteslice :=
  match t with
  | [] => []
  | Ev op _ :: rest => sent_by op ++ sent rest
  end.

(** What the response writer was told, in order: the status code, and the
    body text when [http.Error] wrote one. *)
Definition response_by {R} (op : Op R) : list (Z * option string) :=
  match op with
  | WriteHeader code => [(code, None)]
  | HttpError msg code => [(code, Some msg)]
  | _ => []
  end.

Fixpoint responses (t : list Event) : list (Z * option string) :=
  match t with
  | [] => []
  | Ev op _ :: rest => response_by op ++ responses rest
  end.

(** The line [register] logs first. *)
Definition receivedLine (r : Request) (w : World) : Event :=
  Ev (Printf (LogReceived (Method r)
                (if logClientIP (cfg w) then Some (getRemoteAddr r) else None)
                (ContentLength r))) tt.

(** ** Reloads in sequence *)

(** The operator changes the environment (the configuration file, the key
    file) to [e] and signals; this is done for each element of the list in
    turn.  The sequence ends early when a reload does not return. *)
Fixpoint reloads (es : list Env) (w : World) : Outcome unit * World * list Event :=
  match es with
  | [] => (Returned tt, w, [])
  | e :: es' =>
      match run loadNewConfig (set_env e w) with
      | (Returned _, w', t) =>
          let '(o, w'', t') := reloads es' w' in (o, w'', t ++ t')
      | stopped => stopped
      end
  end.

(** The calls that install authentication state. *)
Definition installs {R} (op : Op R) : bool :=
  match op with
  | AuthStart | AuthAllow _ _ | AuthCurveAdd _ _ | ServerAuthCurve _ _ => true
  | _ => false
  end.

(** A trace in which, after each [Lock], nothing is installed before
    [AuthStop] has been called.  [stopped] says whether it has been, since
    the last [Lock]. *)
Fixpoint reset_first_from (stopped : bool) (t : list Event) : Prop :=
  match t with
  | [] => True
  | Ev op _ :: rest =>
      match op with
      | Lock => reset_first_from false rest
      | AuthStop => reset_first_from true rest
      | _ => (installs op = true → stopped = true) ∧ reset_first_from stopped rest
      end
  end.

(** An auth subsystem that is not running holds no keys: true of a fresh
    process, and kept by every call the server makes. *)
Definition auth_wf (a : ZmqAuth) : Prop :=
  auth_init a = false → auth_pubkeys a = ∅.

(** ** Reading texts, logs and programs *)

Fixpoint contains (c : ascii) (s : string) : bool :=
  match s with
  | EmptyString => false
  | String x rest => Ascii.eqb x c || contains c rest
  end.

Definition first_char (s : string) : option ascii :=
  match s with
  | EmptyString => None
  | String c _ => Some c
  end.

Fixpoint last_char (s : string) : option ascii :=
  match s with
  | EmptyString => None
  | String c EmptyString => Some c
  | String _ rest => last_char rest
  end.

(** What the logger printed, in order. *)
Definition logged_by {R} (op : Op R) : list LogEntry :=
  match op with Printf l => [l] | _ => [] end.

Fixpoint logs (t : list Event) : list LogEntry :=
  match t with
  | [] => []
  | Ev op _ :: rest => logged_by op ++ logs rest
  end.

(** How often the mutex was locked and unlocked. *)
Definition is_lock {R} (op : Op R) : bool := match op with Lock => true | _ => false end.
Definition is_unlock {R} (op : Op R) : bool := match op with Unlock => true | _ => false end.

Fixpoint lock_count (t : list Event) : nat :=
  match t with
  | [] => O
  | Ev op _ :: rest => (if is_lock op then 1 else 0) + lock_count rest
  end.

Fixpoint unlock_count (t : list Event) : nat :=
  match t with
  | [] => O
  | Ev op _ :: rest => (if is_unlock op then 1 else 0) + unlock_count rest
  end.

(** A program that never reaches [os.Exit]. *)
Fixpoint no_exit {A} (p : Prog A) : Prop :=
  match p with
  | Ret _ => True
  | Exit _ => False
  | Panic _ => True
  | Do _ k => ∀ r, no_exit (k r)
  end.

(** A program that neither exits the process nor panics. *)
Fixpoint harmless {A} (p : Prog A) : Prop :=
  match p with
  | Ret _ => True
  | Exit _ => False
  | Panic _ => False
  | Do _ k => ∀ r, harmless (k r)
  end.

(** An auth subsystem that is not running holds no policy at all. *)
Definition auth_clean (a : ZmqAuth) : Prop :=
  auth_init a = false → auth_allow a = ∅ ∧ auth_pubkeys a = ∅.

(** Goroutine [i] can make a step: it has not returned, and it is not
    waiting at [Lock] for a held mutex. *)
Definition enabled (i : nat) (σ : System) : Prop :=
  match threads σ !! i with
  | Some (Do op k) => handle op (world σ) ≠ Wait
  | Some (Exit _) => True
  | Some (Panic _) => True
  | _ => False
  end.

Definition returned (σ : System) : Prop :=
  ∀ i p, threads σ !! i = Some p → ∃ x, p = Ret x.

(** * Properties *)

(** ** Running programs *)

Lemma run_bind {A B} (p : Prog A) (f : A → Prog B) (w : World) :
  run (bind p f) w =
    match run p w with
    | (Returned a, w', t) => let '(o, w'', t') := run (f a) w' in (o, w'', t ++ t')
    | (Exited c, w', t) => (Exited c, w', t)
    | (Panicked m, w', t) => (Panicked m, w', t)
    | (Deadlocked, w', t) => (Deadlocked, w', t)
    | (Crashed m, w', t) => (Crashed m, w', t)
    end.
Proof.
  revert w. induction p as [a|c|m|R op k IH]; intros w; simpl.
  - destruct (run (f a) w) as [[o w'] t]. reflexivity.
  - reflexivity.
  - reflexivity.
  - destruct (handle op w) as [r w'| |m]; try reflexivity.
    rewrite IH. destruct (run (k r) w') as [[o w''] t].
    destruct o; try reflexivity.
    destruct (run (f a) w'') as [[o' w3] t']. by rewrite app_assoc.
Qed.

Lemma EncodeToString_length (l : bytes) :
  String.length (EncodeToString l) = (2 * length l)%nat.
Proof. induction l as [|b l IH]; simpl; lia. Qed.

Lemma string_slice_to_Some (n : nat) (s : string) :
  (n ≤ String.length s)%nat → string_slice_to n s = Some (String.substring 0 n s).
Proof. intros H. unfold string_slice_to. by rewrite decide_True. Qed.

Section ProcessingFacts.
Context {ClientToStation : Type} `{!ProtoLib ClientToStation}.
Implicit Type m : C2SWrapper ClientToStation.

(** An accepted wrapper is logged with a 16-digit prefix of its secret and
    marshalled; the slice of the hex text never panics. *)
Lemma processC2SWrapper_accepts m (clientAddr : byteslice) (w : World) :
  (regIDLen `quot` 2 ≤ len (SharedSecret m))%Z →
  run (processC2SWrapper (Some m) clientAddr) w =
    (Returned (protoMarshal (outboundWrapper (Some m) clientAddr)), w, [forwardingLine m]).
Proof.
  intros Hlen. unfold processC2SWrapper. simpl GetSharedSecret.
  rewrite decide_False by lia.
  rewrite string_slice_to_Some.
  - reflexivity.
  - rewrite EncodeToString_length. simpl.
    destruct (SharedSecret m) as [l|]; simpl in *.
    + change (regIDLen `quot` 2) with 8 in Hlen. change (Z.to_nat regIDLen) with 16%nat. lia.
    + change (regIDLen `quot` 2) with 8 in Hlen. lia.
Qed.

Lemma processC2SWrapper_rejects_short m (clientAddr : byteslice) (w : World) :
  len (SharedSecret m) < regIDLen `quot` 2 →
  run (processC2SWrapper (Some m) clientAddr) w =
    (Returned (None, Some (Errorf "shared secret undefined or insufficient length")), w, []).
Proof.
  intros Hlen. unfold processC2SWrapper. simpl GetSharedSecret.
  by rewrite decide_True.
Qed.

Lemma protoMarshal_not_Errorf m (msg : string) (out : byteslice) :
  protoMarshal m ≠ (out, Some (Errorf msg)).
Proof. unfold protoMarshal. destruct (Marshal m); congruence. Qed.
End ProcessingFacts.

(** ** processC2SWrapper *)

Section ProcessingClaims.
Context {ClientToStation : Type} `{!ProtoLib ClientToStation}.
Implicit Type m : C2SWrapper ClientToStation.

(** C1 (amended): for every non-nil wrapper whose shared secret reaches
    the floor, [processC2SWrapper] marshals a message whose
    registrationAddress is the caller's [clientAddr] when the inbound
    address is absent or the inbound source is API, and the inbound
    address otherwise.  A source that is API only by defaulting does not
    override a given address. *)
Theorem C1_address_by_inbound_source m (clientAddr : byteslice) (w : World) :
  (regIDLen `quot` 2 ≤ len (SharedSecret m))%Z →
  let out := outboundWrapper (Some m) clientAddr in
  run (processC2SWrapper (Some m) clientAddr) w
    = (Returned (protoMarshal out), w, [forwardingLine m])
  ∧ (RegistrationAddress m = None ∨ RegistrationSource_ m = Some API →
     RegistrationAddress out = clientAddr)
  ∧ (RegistrationAddress m ≠ None → RegistrationSource_ m ≠ Some API →
     RegistrationAddress out = RegistrationAddress m).
Proof.
  intros Hlen out. split; [by apply processC2SWrapper_accepts|].
  subst out. unfold outboundWrapper; simpl.
  split.
  - intros [Habsent | Hapi].
    + rewrite Habsent. by rewrite bool_decide_eq_true_2.
    + rewrite Hapi. rewrite (bool_decide_eq_true_2 (API = API)) by done.
      by rewrite orb_true_r.
  - intros Hgiven Hsrc.
    rewrite bool_decide_eq_false_2 by done.
    rewrite bool_decide_eq_false_2; [done|].
    destruct (RegistrationSource_ m) as [src|]; [|done].
    intros ->. by apply Hsrc.
Qed.

(** C2: a non-nil wrapper whose shared secret reaches the floor is
    accepted: when marshalling succeeds the call returns the marshalled
    bytes and no error, and the marshalled message carries the inbound
    shared secret and payload unchanged. *)
Theorem C2_secret_and_payload_preserved m (clientAddr : byteslice) (w : World) (b : bytes) :
  (regIDLen `quot` 2 ≤ len (SharedSecret m))%Z →
  Marshal (outboundWrapper (Some m) clientAddr) = inl b →
  run (processC2SWrapper (Some m) clientAddr) w = (Returned (Some b, None), w, [forwardingLine m])
  ∧ SharedSecret (outboundWrapper (Some m) clientAddr) = SharedSecret m
  ∧ RegistrationPayload (outboundWrapper (Some m) clientAddr) = RegistrationPayload m.
Proof.
  intros Hlen Hb. rewrite processC2SWrapper_accepts by done.
  unfold protoMarshal. rewrite Hb. done.
Qed.

(** C4: for an accepted wrapper the marshalled source is API when the
    inbound source is unset (nil, or the Unspecified tag), the inbound
    source otherwise; it is never left unset: the field is populated and
    its value is not Unspecified. *)
Theorem C4_source_defaults_to_API m (clientAddr : byteslice) (w : World) :
  (regIDLen `quot` 2 ≤ len (SharedSecret m))%Z →
  let out := outboundWrapper (Some m) clientAddr in
  run (processC2SWrapper (Some m) clientAddr) w
    = (Returned (protoMarshal out), w, [forwardingLine m])
  ∧ (RegistrationSource_ m = None ∨ RegistrationSource_ m = Some Unspecified →
     RegistrationSource_ out = Some API)
  ∧ (∀ src, RegistrationSource_ m = Some src → src ≠ Unspecified →
     RegistrationSource_ out = RegistrationSource_ m)
  ∧ RegistrationSource_ out ≠ None
  ∧ GetRegistrationSource (Some out) ≠ Unspecified.
Proof.
  intros Hlen out. split; [by apply processC2SWrapper_accepts|].
  subst out. unfold outboundWrapper; simpl.
  split_and!.
  - intros [-> | ->]; by rewrite decide_True.
  - intros src -> Hsrc. by rewrite decide_False.
  - done.
  - by destruct (decide _).
Qed.
End ProcessingClaims.

(** ** The handler *)

Lemma sendToZMQ_run (message : byteslice) (w : World) :
  mutex w = false →
  run (sendToZMQ message) w =
    (Returned (transport (env w) message), w,
     [Ev Lock tt; Ev (SendBytes message) (transport (env w) message); Ev Unlock tt]).
Proof.
  intros Hfree. destruct w as [mu c a s e]. simpl in Hfree. subst mu.
  reflexivity.
Qed.

Section HandlerFacts.
Context {ClientToStation : Type} `{!ProtoLib ClientToStation} `{!NetLib}.

Local Arguments processC2SWrapper : simpl never.

(** [register], run on one request: one case per exit of the handler. *)
Lemma register_run (s : server) (r : Request) (w : World) :
  run (register s r) w =
    if decide (Method r ≠ "POST") then
      (Returned tt, w,
       [receivedLine r w; Ev (Printf (LogBadMethod (Method r))) tt;
        Ev (WriteHeader StatusMethodNotAllowed) tt])
    else if decide (ContentLength r < MinimumRequestLength)%Z then
      (Returned tt, w,
       [receivedLine r w;
        Ev (Printf (LogShortContentLength (ContentLength r) MinimumRequestLength)) tt;
        Ev (HttpError "Payload too small" StatusBadRequest) tt])
    else
      match Body r with
      | (_, Some e) =>
          (Returned tt, w,
           [receivedLine r w; Ev (Printf (LogReadBodyFailed e)) tt;
            Ev (HttpError "Failed to read request body" StatusBadRequest) tt])
      | (in_, None) =>
          match Unmarshal in_ with
          | inr e =>
              (Returned tt, w,
               [receivedLine r w; Ev (Printf (LogDecodeFailed (ProtoError e))) tt;
                Ev (HttpError "Failed to decode protobuf body" StatusBadRequest) tt])
          | inl payload =>
              if decide (len (SharedSecret payload) < regIDLen `quot` 2)%Z then
                (Returned tt, w,
                 [receivedLine r w;
                  Ev (Printf (LogMarshalFailed
                                (Errorf "shared secret undefined or insufficient length"))) tt;
                  Ev (WriteHeader StatusInternalServerError) tt])
              else
                match protoMarshal
                        (outboundWrapper (Some payload) (clientAddrBytesOf (getRemoteAddr r))) with
                | (_, Some e) =>
                    (Returned tt, w,
                     [receivedLine r w; forwardingLine payload;
                      Ev (Printf (LogMarshalFailed e)) tt;
                      Ev (WriteHeader StatusInternalServerError) tt])
                | (zmqPayload, None) =>
                    match run (messageAccepter s zmqPayload) w with
                    | (Returned (Some e), w', t) =>
                        (Returned tt, w',
                         [receivedLine r w; forwardingLine payload] ++ t ++
                         [Ev (Printf (LogPublishFailed e)) tt;
                          Ev (WriteHeader StatusInternalServerError) tt])
                    | (Returned None, w', t) =>
                        (Returned tt, w',
                         [receivedLine r w; forwardingLine payload] ++ t ++
                         [Ev (WriteHeader StatusNoContent) tt])
                    | (Exited c, w', t) =>
                        (Exited c, w', [receivedLine r w; forwardingLine payload] ++ t)
                    | (Panicked m, w', t) =>
                        (Panicked m, w', [receivedLine r w; forwardingLine payload] ++ t)
                    | (Deadlocked, w', t) =>
                        (Deadlocked, w', [receivedLine r w; forwardingLine payload] ++ t)
                    | (Crashed m, w', t) =>
                        (Crashed m, w', [receivedLine r w; forwardingLine payload] ++ t)
                    end
                end
          end
      end.
Proof.
  unfold register, receivedLine. simpl.
  destruct (logClientIP (cfg w)); simpl.
  all: destruct (decide (Method r ≠ "POST")); [reflexivity|].
  all: destruct (decide (ContentLength r < MinimumRequestLength)%Z); [reflexivity|].
  all: destruct (Body r) as [in_ [e|]]; [reflexivity|].
  all: destruct (Unmarshal in_) as [payload|e]; [|reflexivity].
  all: unfold mbind, Prog_bind; rewrite run_bind.
  all: destruct (decide (len (SharedSecret payload) < regIDLen `quot` 2)%Z) as [Hs|Hs].
  all: try (rewrite processC2SWrapper_rejects_short by done; reflexivity).
  all: rewrite processC2SWrapper_accepts by lia.
  all: destruct (protoMarshal _) as [zmqPayload [e|]]; [reflexivity|].
  all: rewrite run_bind.
  all: destruct (run (messageAccepter s zmqPayload) w) as [[o w'] t].
  all: destruct o as [[e|]| | | |]; simpl; try reflexivity.
  all: by rewrite <- ?app_assoc.
Qed.
End HandlerFacts.

Section HandlerClaims.
Context {ClientToStation : Type} `{!ProtoLib ClientToStation} `{!NetLib}.

(** C5: with [sendToZMQ] as the sender and the mutex free, the handler
    answers every request with exactly one status, decided in this order:
    405 unless the method is POST; 400 when ContentLength is below 33, the
    body cannot be read or does not decode; 500 when processing or the
    send fails; 204, with no body, otherwise -- and then the response is
    written after the send has returned without error. *)
Theorem C5_status_by_stage (r : Request) (w : World) :
  mutex w = false →
  let res := run (register (mkServer sendToZMQ) r) w in
  ∃ code body,
    outcome_of res = Returned tt
    ∧ responses (trace_of res) = [(code, body)]
    ∧ (Method r ≠ "POST" → code = 405)
    ∧ (Method r = "POST" → (ContentLength r < 33)%Z → code = 400)
    ∧ (Method r = "POST" → (33 ≤ ContentLength r)%Z →
       ∀ in_ e, Body r = (in_, Some e) → code = 400)
    ∧ (Method r = "POST" → (33 ≤ ContentLength r)%Z →
       ∀ in_ e, Body r = (in_, None) → Unmarshal in_ = inr e → code = 400)
    ∧ (Method r = "POST" → (33 ≤ ContentLength r)%Z →
       ∀ in_ payload zmqPayload err,
         Body r = (in_, None) → Unmarshal in_ = inl payload →
         outcome_of (run (processC2SWrapper (Some payload)
                            (clientAddrBytesOf (getRemoteAddr r))) w)
           = Returned (zmqPayload, err) →
         (err ≠ None → code = 500 ∧ sent (trace_of res) = [])
         ∧ (err = None → transport (env w) zmqPayload ≠ None →
            code = 500 ∧ sent (trace_of res) = [zmqPayload])
         ∧ (err = None → transport (env w) zmqPayload = None →
            code = 204 ∧ body = None ∧ sent (trace_of res) = [zmqPayload]))
    ∧ (code = 204 →
       ∃ pre zmqPayload,
         trace_of res = pre ++ [Ev Lock tt; Ev (SendBytes zmqPayload) None;
                                Ev Unlock tt; Ev (WriteHeader 204) tt]).
Proof.
  intros Hfree res. subst res. rewrite register_run.
  change MinimumRequestLength with 33%Z.
  destruct (decide (Method r ≠ "POST")) as [Hm|Hm].
  { exists 405%Z, None. split_and!; try done. }
  apply dec_stable in Hm.
  destruct (decide (ContentLength r < 33)%Z) as [Hc|Hc].
  { exists 400%Z, (Some "Payload too small"). split_and!; try done; intros; lia. }
  destruct (Body r) as [in_ [e|]] eqn:Hbody.
  { exists 400%Z, (Some "Failed to read request body").
    split_and!; try done; intros; simplify_eq. }
  destruct (Unmarshal in_) as [payload|e] eqn:Hdec.
  2:{ exists 400%Z, (Some "Failed to decode protobuf body").
      split_and!; try done; intros; simplify_eq; congruence. }
  assert (Hstage : ∀ in' payload' zmqPayload err,
             (in_, @None error) = (in', None) → Unmarshal in' = inl payload' →
             outcome_of (run (processC2SWrapper (Some payload')
                                (clientAddrBytesOf (getRemoteAddr r))) w)
               = Returned (zmqPayload, err) →
             payload' = payload ∧
             (zmqPayload, err) =
               if decide (len (SharedSecret payload) < regIDLen `quot` 2)%Z
               then (None, Some (Errorf "shared secret undefined or insufficient length"))
               else protoMarshal (outboundWrapper (Some payload)
                                    (clientAddrBytesOf (getRemoteAddr r)))).
  { intros in' payload' zp err Hin Hdec' Hrun. simplify_eq.
    rewrite Hdec in Hdec'. simplify_eq. split; [done|].
    destruct (decide _) as [Hs|Hs].
    - rewrite processC2SWrapper_rejects_short in Hrun by done.
      unfold outcome_of in Hrun; simpl in Hrun. by simplify_eq.
    - rewrite processC2SWrapper_accepts in Hrun by lia.
      unfold outcome_of in Hrun; simpl in Hrun. by simplify_eq. }
  destruct (decide (len (SharedSecret payload) < regIDLen `quot` 2)%Z) as [Hs|Hs].
  { exists 500%Z, None. split_and!; try done; try by (intros; simplify_eq; congruence).
    intros _ _ in' payload' zp err Hin Hdec' Hrun.
    destruct (Hstage _ _ _ _ Hin Hdec' Hrun) as [-> Hres]. simplify_eq.
    split_and!; done. }
  destruct (protoMarshal _) as [zmqPayload [e|]] eqn:Hmar.
  { exists 500%Z, None. split_and!; try done; try by (intros; simplify_eq; congruence).
    intros _ _ in' payload' zp err Hin Hdec' Hrun.
    destruct (Hstage _ _ _ _ Hin Hdec' Hrun) as [-> Hres]. simplify_eq.
    split_and!; done. }
  simpl messageAccepter. rewrite sendToZMQ_run by done.
  destruct (transport (env w) zmqPayload) as [e|] eqn:Hsend.
  { exists 500%Z, None. split_and!; try done; try by (intros; simplify_eq; congruence).
    intros _ _ in' payload' zp err Hin Hdec' Hrun.
    destruct (Hstage _ _ _ _ Hin Hdec' Hrun) as [-> Hres]. simplify_eq.
    split_and!; try done. intros; congruence. }
  exists 204%Z, None. split_and!; try done; try by (intros; simplify_eq; congruence).
  - intros _ _ in' payload' zp err Hin Hdec' Hrun.
    destruct (Hstage _ _ _ _ Hin Hdec' Hrun) as [-> Hres]. simplify_eq.
    split_and!; try done.
  - intros _. exists [receivedLine r w; forwardingLine payload], zmqPayload.
    unfold trace_of; simpl. done.
Qed.

(** C3: [processC2SWrapper] returns one of its own validation errors, and
    no output, exactly when the wrapper is nil or its shared secret is
    shorter than regIDLen/2 = 8 bytes; a handler given such a wrapper
    never calls its sender. *)
Theorem C3_validation_error_iff_nil_or_short
    (m : option (C2SWrapper ClientToStation)) (clientAddr : byteslice) (w : World) :
  regIDLen `quot` 2 = 8%Z
  ∧ (m = None ∨ (len (GetSharedSecret m) < regIDLen `quot` 2)%Z →
     ∃ msg, run (processC2SWrapper m clientAddr) w
              = (Returned (None, Some (Errorf msg)), w, []))
  ∧ (∀ out msg,
       outcome_of (run (processC2SWrapper m clientAddr) w)
         = Returned (out, Some (Errorf msg)) →
       m = None ∨ (len (GetSharedSecret m) < regIDLen `quot` 2)%Z)
  ∧ (∀ (s : server) (r : Request) in_ payload,
       Body r = (in_, None) → Unmarshal in_ = inl payload →
       (len (SharedSecret payload) < regIDLen `quot` 2)%Z →
       outcome_of (run (register s r) w) = Returned tt
       ∧ sent (trace_of (run (register s r) w)) = []).
Proof.
  split_and!.
  - reflexivity.
  - intros [-> | Hshort].
    + by eexists.
    + destruct m as [x|]; [|by eexists].
      eexists. by apply processC2SWrapper_rejects_short.
  - intros out msg Hrun. destruct m as [x|]; [|by left].
    destruct (decide (len (SharedSecret x) < regIDLen `quot` 2)%Z) as [Hs|Hs]; [by right|].
    rewrite processC2SWrapper_accepts in Hrun by lia.
    unfold outcome_of in Hrun; simpl in Hrun.
    exfalso. eapply protoMarshal_not_Errorf. by simplify_eq.
  - intros s r in_ payload Hbody Hdec Hshort. rewrite register_run.
    destruct (decide (Method r ≠ "POST")); [done|].
    destruct (decide (ContentLength r < MinimumRequestLength)%Z); [done|].
    rewrite Hbody, Hdec. by rewrite decide_True.
Qed.
End HandlerClaims.

(** ** The client address *)

Section AddressFacts.
Context `{!NetLib}.

(** Where [parseIP] gives up, the handler passes 16 zero bytes. *)
Lemma clientAddrBytesOf_unparsed (requestIP : string) :
  parseIP requestIP = None →
  clientAddrBytesOf requestIP = Some (replicate 16 x00).
Proof. unfold clientAddrBytesOf. by intros ->. Qed.

(** A parsed address of 4 or 16 bytes is passed in its 16-byte form. *)
Lemma To16_length (l : bytes) :
  length l = 4%nat ∨ length l = 16%nat →
  ∃ l16, To16 (Some l) = Some l16 ∧ length l16 = 16%nat.
Proof.
  intros [H4 | H16].
  - destruct l as [|a [|b [|c [|d [|]]]]]; simplify_eq/=. by eexists.
  - exists l. split; [|done].
    do 5 (destruct l as [|? l]; [discriminate H16|]).
    simpl. by rewrite decide_True.
Qed.

(** X18: everywhere else the handler passes 16 bytes.  Given that
    [ParseIP] returns nil or a 16-byte address (as package net's does), the
    address bytes are either 16 bytes long or -- only for a host:port text
    whose host does not parse -- the nil slice. *)
Lemma clientAddrBytesOf_cases (requestIP : string) :
  (∀ s l, ParseIP s = Some l → length l = 16%nat) →
  (∃ l, clientAddrBytesOf requestIP = Some l ∧ length l = 16%nat)
  ∨ (∃ host port, SplitHostPort requestIP = (host, port, None) ∧ host ≠ ""
                  ∧ ParseIP host = None ∧ clientAddrBytesOf requestIP = None).
Proof.
  intros H16. unfold clientAddrBytesOf, parseIP.
  destruct (SplitHostPort requestIP) as [[host port] err] eqn:Hsplit.
  destruct err as [e|]; cbn.
  { left. destruct (ParseIP requestIP) as [l|] eqn:Hip.
    - apply To16_length. right. by eapply H16.
    - by eexists. }
  destruct (decide (host = "")) as [->|Hhost]; cbn.
  { left. destruct (ParseIP requestIP) as [l|] eqn:Hip.
    - apply To16_length. right. by eapply H16.
    - by eexists. }
  rewrite bool_decide_eq_false_2 by done.
  destruct (ParseIP host) as [l|] eqn:Hip.
  - left. apply To16_length. right. by eapply H16.
  - right. by exists host, port.
Qed.

(** C6 (the code departs from the claim): when the text splits into a
    host and a port and the host is no IP literal, [parseIP] returns a
    non-nil pointer to a nil address, and the handler passes the nil
    slice -- no bytes at all -- where the claim promises 16 zero bytes. *)
Theorem C6_unparsed_host_gives_nil_address (requestIP host port : string) :
  SplitHostPort requestIP = (host, port, None) →
  host ≠ "" →
  ParseIP host = None →
  parseIP requestIP = Some None
  ∧ clientAddrBytesOf requestIP = None
  ∧ clientAddrBytesOf requestIP ≠ Some (replicate 16 x00)
  ∧ len (clientAddrBytesOf requestIP) = 0%Z.
Proof.
  intros Hsplit Hhost Hparse.
  assert (parseIP requestIP = Some None) as Hptr.
  { unfold parseIP. rewrite Hsplit.
    rewrite bool_decide_eq_false_2 by (by intros []).
    rewrite bool_decide_eq_false_2 by done. simpl. by rewrite Hparse. }
  unfold clientAddrBytesOf. rewrite Hptr. done.
Qed.
End AddressFacts.

(** ** Authentication *)

(** [setupAuth], run alone: one case per exit. *)
Lemma setupAuth_run (w : World) :
  run setupAuth w =
    if decide (AuthType (cfg w) = "CURVE") then
      let path := PrivateKeyPath (cfg w) in
      match fs (env w) !! path with
      | None =>
          let err := IOError "no such file or directory" in
          (Exited 1, w,
           [Ev (ReadFile path) (mkSlice [] 0, Some err); Ev (Printf (LogPrivateKeyFailed err)) tt])
      | Some data =>
          match slice_to 32 data with
          | None => (Panicked "slice bounds out of range", w, [Ev (ReadFile path) (data, None)])
          | Some key =>
              let a1 := zmq_AuthSetVerbose (AuthVerbose (cfg w)) (auth w) in
              let keys := StationPublicKeys (cfg w) in
              let privkey := Z85encode (contents key) in
              let before :=
                [Ev (ReadFile path) (data, None); Ev (AuthSetVerbose (AuthVerbose (cfg w))) tt] in
              match zmq_AuthStart (authStartErr (env w)) a1 with
              | (Some e, a2) =>
                  (Exited 1, set_auth a2 w,
                   before ++ [Ev AuthStart (Some e); Ev (Printf (LogAuthStartFailed e)) tt])
              | (None, a2) =>
                  let a4 := zmq_AuthCurveAdd "*" keys (zmq_AuthAllow "*" [] a2) in
                  let install :=
                    before ++ [Ev AuthStart None; Ev (Printf (LogStationPublicKeys keys)) tt;
                               Ev (AuthAllow "*" []) tt; Ev (AuthCurveAdd "*" keys) tt] in
                  match zmq_ServerAuthCurve (serverAuthErr (env w)) "*" privkey (sock w) with
                  | (Some e, s') =>
                      (Exited 1, set_sock s' (set_auth a4 w),
                       install ++ [Ev (ServerAuthCurve "*" privkey) (Some e);
                                   Ev (Printf (LogSocketAuthFailed e)) tt])
                  | (None, s') =>
                      (Returned tt, set_sock s' (set_auth a4 w),
                       install ++ [Ev (ServerAuthCurve "*" privkey) None])
                  end
              end
          end
      end
    else (Returned tt, w, []).
Proof.
  unfold setupAuth. simpl.
  destruct (decide (AuthType (cfg w) = "CURVE")); [|reflexivity].
  simpl. destruct (fs (env w) !! PrivateKeyPath (cfg w)) as [data|]; [|reflexivity].
  simpl. destruct (slice_to 32 data) as [key|]; [|reflexivity].
  simpl. destruct (zmq_AuthStart _ _) as [[failure|] a2]; [reflexivity|].
  simpl. destruct (zmq_ServerAuthCurve _ _ _ _) as [[failure|] s']; reflexivity.
Qed.

(** C9: when the configured auth type is not "CURVE", [setupAuth] returns
    at once: it makes no call (no file read, no auth subsystem call, no
    socket call) and leaves the world -- configuration, authentication
    state and socket -- as it was. *)
Theorem C9_setupAuth_noop_without_CURVE (w : World) :
  AuthType (cfg w) ≠ "CURVE" →
  run setupAuth w = (Returned tt, w, []).
Proof. intros Hauth. rewrite setupAuth_run. by rewrite decide_False. Qed.

(** C10 (amended): with auth type "CURVE" and a readable key file,
    [setupAuth] panics on [privkeyBytes[:32]] exactly when the slice that
    [ReadFile] returned has a capacity below 32, and it panics before any
    auth call and before any of its fatal exits.  A key file of at least
    32 bytes rules the panic out.  A shorter file read into a buffer of
    capacity 32 or more does not panic: the key is then the file's bytes
    followed by the buffer's spare bytes. *)
Theorem C10_panic_iff_capacity_below_32 (w : World) (data : GoSlice) :
  AuthType (cfg w) = "CURVE" →
  fs (env w) !! PrivateKeyPath (cfg w) = Some data →
  ((cap data < 32)%nat →
   run setupAuth w = (Panicked "slice bounds out of range", w,
                      [Ev (ReadFile (PrivateKeyPath (cfg w))) (data, None)]))
  ∧ ((32 ≤ cap data)%nat → ∀ m, outcome_of (run setupAuth w) ≠ Panicked m)
  ∧ ((slen data ≤ cap data)%nat → (32 ≤ slen data)%nat →
     ∀ m, outcome_of (run setupAuth w) ≠ Panicked m)
  ∧ ((32 ≤ cap data)%nat → outcome_of (run setupAuth w) = Returned tt →
     curve_secretkey (sock (world_of (run setupAuth w)))
       = Some (Z85encode (take 32 (arr data)))).
Proof.
  intros Hauth Hfile. rewrite setupAuth_run. rewrite decide_True by done.
  simpl. rewrite Hfile. unfold slice_to.
  destruct (decide (32 ≤ cap data)%nat) as [Hcap|Hcap].
  - destruct (zmq_AuthStart _ _) as [[failure|] a2].
    { split_and!; [lia|done..]. }
    destruct (zmq_ServerAuthCurve _ _ _ _) as [[failure|] s'] eqn:Hsock.
    { split_and!; [lia|done..]. }
    split_and!; [lia|done..|].
    intros _ _. unfold zmq_ServerAuthCurve in Hsock.
    destruct (serverAuthErr (env w)); simplify_eq. done.
  - split_and!; [done|lia|lia|lia].
Qed.

(** ** Reloading *)

Lemma run_defer_unlock {A} (p : Prog A) (w : World) :
  run (defer_ (call Unlock) p) w =
    match run p w with
    | (Returned a, w', t) =>
        if mutex w' then (Returned a, set_mutex false w', t ++ [Ev Unlock tt])
        else (Crashed "sync: unlock of unlocked mutex", w', t)
    | (Panicked m, w', t) =>
        if mutex w' then (Panicked m, set_mutex false w', t ++ [Ev Unlock tt])
        else (Crashed "sync: unlock of unlocked mutex", w', t)
    | stopped => stopped
    end.
Proof.
  revert w. induction p as [a|c|m|R op k IH]; intros w; simpl.
  - by destruct (mutex w).
  - done.
  - by destruct (mutex w).
  - destruct (handle op w) as [r w'| |m]; [|done..].
    rewrite IH. destruct (run (k r) w') as [[o w''] t].
    destruct o; try done; destruct (mutex w''); try done; by rewrite app_assoc.
Qed.

Lemma setupAuth_mutex (w : World) :
  mutex (world_of (run setupAuth w)) = mutex w.
Proof.
  rewrite setupAuth_run. unfold world_of.
  destruct (decide _); [|done]. simpl.
  destruct (fs _ !! _); [|done].
  destruct (slice_to _ _); [|done].
  destruct (zmq_AuthStart _ _) as [[?|] ?]; [done|].
  by destruct (zmq_ServerAuthCurve _ _ _ _) as [[?|] ?].
Qed.

(** [loadNewConfig], run alone with the mutex free. *)
Lemma loadNewConfig_run (w : World) :
  mutex w = false →
  run loadNewConfig w =
    let decoded := decodeInto (env w) (cfg w) in
    let w2 := set_cfg decoded.1 (set_mutex true w) in
    let before := [Ev Lock tt; Ev (Printf LogReloading) tt; Ev DecodeFile decoded.2] in
    match decoded.2 with
    | Some e => (Exited 1, w2, before ++ [Ev (Printf (LogLoadConfigFailed e)) tt])
    | None =>
        match run setupAuth (set_auth (zmq_AuthStop (auth w)) w2) with
        | (Returned _, w4, t) =>
            (Returned tt, set_mutex false w4, before ++ [Ev AuthStop tt] ++ t ++ [Ev Unlock tt])
        | (Panicked m, w4, t) =>
            (Panicked m, set_mutex false w4, before ++ [Ev AuthStop tt] ++ t ++ [Ev Unlock tt])
        | (o, w4, t) => (o, w4, before ++ [Ev AuthStop tt] ++ t)
        end
    end.
Proof.
  intros Hfree. unfold loadNewConfig.
  change (call Lock ;; ?p) with (Do Lock (λ _, p)).
  cbn [run handle]. rewrite Hfree. rewrite run_defer_unlock.
  unfold mbind, Prog_bind, call. cbn [bind run handle record observable].
  cbn [cfg env set_mutex].
  destruct (decodeInto (env w) (cfg w)) as [c [e|]] eqn:Hdecode; cbn [fst snd].
  { reflexivity. }
  cbn [bind run handle record observable mret Prog_ret].
  set (w3 := set_auth _ _).
  pose proof (setupAuth_mutex w3) as Hmutex.
  replace (set_auth (zmq_AuthStop (auth w)) (set_cfg c (set_mutex true w))) with w3 by done.
  destruct (run setupAuth w3) as [[o w4] t].
  unfold world_of in Hmutex; simpl in Hmutex.
  destruct o as [[]| | | |]; rewrite ?Hmutex; simpl; rewrite <- ?app_assoc; reflexivity.
Qed.

Lemma zmq_AuthStop_stopped (a : ZmqAuth) :
  auth_wf a →
  auth_init (zmq_AuthStop a) = false ∧ auth_pubkeys (zmq_AuthStop a) = ∅.
Proof.
  intros Hwf. unfold zmq_AuthStop.
  destruct (auth_init a) eqn:Hinit; [done|]. split; [done|]. by apply Hwf.
Qed.

(** One reload that returns: the allow-list is that of the configuration
    just decoded, whatever was installed before. *)
Lemma reload_installs_latest (e : Env) (w w' : World) (t : list Event) :
  mutex w = false →
  auth_wf (auth w) →
  run loadNewConfig (set_env e w) = (Returned tt, w', t) →
  mutex w' = false
  ∧ auth_wf (auth w')
  ∧ cfg w' = (decodeInto e (cfg w)).1
  ∧ allowed_keys "*" (auth w') =
      (if decide (AuthType (cfg w') = "CURVE")
       then list_to_set (StationPublicKeys (cfg w')) else ∅)
  ∧ ∀ b, reset_first_from b t.
Proof.
  intros Hfree Hwf Hrun.
  rewrite loadNewConfig_run in Hrun by done.
  cbn [env cfg auth set_env set_mutex set_cfg] in Hrun.
  destruct (decodeInto e (cfg w)) as [c [err|]] eqn:Hdecode; [done|].
  cbn [fst snd] in Hrun. rewrite setupAuth_run in Hrun.
  cbn [env cfg auth sock set_env set_mutex set_cfg set_auth] in Hrun.
  destruct (zmq_AuthStop_stopped _ Hwf) as [Hinit Hkeys].
  destruct (decide (AuthType c = "CURVE")) as [Hcurve|Hcurve].
  - cbn zeta in Hrun.
    destruct (fs e !! PrivateKeyPath c) as [data|]; [|done].
    destruct (slice_to 32 data) as [key|]; [|done].
    unfold zmq_AuthStart in Hrun. cbn [zmq_AuthSetVerbose auth_init] in Hrun.
    rewrite Hinit in Hrun.
    destruct (authStartErr e); [done|].
    unfold zmq_ServerAuthCurve in Hrun.
    destruct (serverAuthErr e); [done|].
    simplify_eq. cbn. split_and!; try done.
    rewrite decide_True by done.
    rewrite lookup_insert_eq. cbn.
    rewrite Hkeys, lookup_empty. cbn. by rewrite (left_id_L ∅ (∪)).
  - simplify_eq. cbn. split_and!; try done.
    + by intros _.
    + rewrite decide_False by done. unfold allowed_keys. by rewrite Hinit.
Qed.

Lemma reset_first_from_app (b : bool) (t t' : list Event) :
  reset_first_from b t →
  (∀ b', reset_first_from b' t') →
  reset_first_from b (t ++ t').
Proof.
  intros Ht Ht'. revert b Ht.
  induction t as [|[R op r] t IH]; intros b Ht; [by apply Ht'|].
  destruct op; cbn in *; try (split; [tauto|]); try apply IH; tauto.
Qed.

Lemma setupAuth_keeps_wf (w w' : World) (t : list Event) :
  auth_wf (auth w) →
  run setupAuth w = (Returned tt, w', t) →
  mutex w' = mutex w ∧ auth_wf (auth w').
Proof.
  intros Hwf Hrun. pose proof (setupAuth_mutex w) as Hmutex.
  rewrite Hrun in Hmutex. split; [done|].
  rewrite setupAuth_run in Hrun.
  destruct (decide _); [|by simplify_eq].
  cbn zeta in Hrun.
  destruct (fs _ !! _); [|done].
  destruct (slice_to _ _); [|done].
  unfold zmq_AuthStart in Hrun.
  destruct (auth_init _); [done|].
  destruct (authStartErr _); [done|].
  unfold zmq_ServerAuthCurve in Hrun.
  destruct (serverAuthErr _); [done|].
  simplify_eq. by intros ?.
Qed.

Lemma reloads_snoc (es : list Env) (e : Env) (w w' : World) (t : list Event) :
  reloads (es ++ [e]) w = (Returned tt, w', t) →
  ∃ w2 t2 t3,
    reloads es w = (Returned tt, w2, t2)
    ∧ run loadNewConfig (set_env e w2) = (Returned tt, w', t3)
    ∧ t = t2 ++ t3.
Proof.
  revert w t. induction es as [|e0 es IH]; intros w t Hrun; cbn [reloads app] in Hrun.
  - destruct (run loadNewConfig (set_env e w)) as [[o w1] t1] eqn:Hone.
    destruct o as [[]| | | |]; simplify_eq.
    exists w, [], t1. by rewrite app_nil_r.
  - cbn [reloads]. destruct (run loadNewConfig (set_env e0 w)) as [[o w1] t1].
    destruct o as [[]| | | |]; simplify_eq.
    destruct (reloads (es ++ [e]) w1) as [[o2 w2] t2] eqn:Hrest. simplify_eq.
    destruct (IH _ _ Hrest) as (w3 & t3 & t4 & Hes & Hlast & ->).
    rewrite Hes. exists w3, (t1 ++ t3), t4. by rewrite app_assoc.
Qed.

Lemma reloads_keep_wf (es : list Env) (w w' : World) (t : list Event) :
  mutex w = false →
  auth_wf (auth w) →
  reloads es w = (Returned tt, w', t) →
  mutex w' = false ∧ auth_wf (auth w') ∧ ∀ b, reset_first_from b t.
Proof.
  revert w t. induction es as [|e es IH]; intros w t Hfree Hwf Hrun; cbn [reloads] in Hrun.
  - by simplify_eq.
  - destruct (run loadNewConfig (set_env e w)) as [[o w1] t1] eqn:Hone.
    destruct o as [[]| | | |]; simplify_eq.
    destruct (reloads es w1) as [[o2 w2] t2] eqn:Hrest. simplify_eq.
    destruct (reload_installs_latest _ _ _ _ Hfree Hwf Hone) as (Hfree1 & Hwf1 & _ & _ & Ht1).
    destruct (IH _ _ Hfree1 Hwf1 Hrest) as (? & ? & Ht2).
    split_and!; [done..|]. intros b. by apply reset_first_from_app.
Qed.

(** C8: start the server ([setupAuth] on a process that has installed
    nothing), then reload any number of times, each time from a changed
    environment.  If the last reload returns, every reload in the trace
    called [AuthStop] before it installed anything, and the keys the auth
    subsystem lets in are exactly the station keys of the configuration the
    last reload decoded (none when that configuration is not "CURVE"): a
    key found only in an earlier configuration is not among them. *)
Theorem C8_reload_installs_only_latest_keys
    (w0 w1 w : World) (t1 t : list Event) (es : list Env) (e : Env) :
  mutex w0 = false →
  auth_wf (auth w0) →
  run setupAuth w0 = (Returned tt, w1, t1) →
  reloads (es ++ [e]) w1 = (Returned tt, w, t) →
  (∀ b, reset_first_from b t)
  ∧ allowed_keys "*" (auth w) =
      (if decide (AuthType (cfg w) = "CURVE")
       then list_to_set (StationPublicKeys (cfg w)) else ∅)
  ∧ (∀ k, k ∈ allowed_keys "*" (auth w) → k ∈ StationPublicKeys (cfg w))
  ∧ (∃ w_before, cfg w = (decodeInto e (cfg w_before)).1).
Proof.
  intros Hfree Hwf Hstart Hrun.
  destruct (setupAuth_keeps_wf _ _ _ Hwf Hstart) as [Hfree1 Hwf1].
  rewrite Hfree in Hfree1.
  pose proof (reloads_keep_wf _ _ _ _ Hfree1 Hwf1 Hrun) as (_ & _ & Hreset).
  destruct (reloads_snoc _ _ _ _ _ Hrun) as (w2 & t2 & t3 & Hes & Hlast & ->).
  destruct (reloads_keep_wf _ _ _ _ Hfree1 Hwf1 Hes) as (Hfree2 & Hwf2 & _).
  destruct (reload_installs_latest _ _ _ _ Hfree2 Hwf2 Hlast) as (_ & _ & Hcfg & Hkeys & _).
  split_and!; [done|done| |by exists w2].
  intros k. rewrite Hkeys. destruct (decide _); [|set_solver].
  by rewrite elem_of_list_to_set.
Qed.

(** ** Mutual exclusion *)

Lemma locks_bind {A B} (a b b' c : bool) (p : Prog A) (f : A → Prog B) :
  locks a b c p →
  (∀ x, locks b b' c (f x)) →
  locks a b' c (bind p f).
Proof.
  revert a. induction p as [x|code|m|R op k IH]; intros a Hp Hf; cbn in *.
  - subst a. apply Hf.
  - done.
  - done.
  - destruct (permit op a) as [a'|]; [|done].
    intros r. by apply IH.
Qed.

Lemma locks_defer_unlock {A} (p : Prog A) :
  locks true true true p →
  locks true false false (defer_ (call Unlock) p).
Proof.
  generalize true at 1 4 as a.
  induction p as [x|code|m|R op k IH]; intros a Hp; cbn in *.
  - by subst a.
  - done.
  - by subst a.
  - destruct (permit op a) as [a'|]; [|done].
    intros r. by apply IH.
Qed.

Lemma locks_recover (a b : bool) (p : Prog unit) :
  locks a b b p → locks a b b (recover_ p).
Proof.
  revert a. induction p as [x|code|m|R op k IH]; intros a Hp; cbn in *; try done.
  destruct (permit op a) as [a'|]; [|done].
  intros r. by apply IH.
Qed.

Lemma sendToZMQ_locks (message : byteslice) :
  locks false false false (sendToZMQ message).
Proof. cbn. done. Qed.

Lemma setupAuth_locks : locks true true true setupAuth.
Proof.
  cbn. intros c. destruct (decide _); [|done].
  cbn. intros [data [err|]]; cbn; [done|].
  destruct (slice_to 32 data); cbn; [|done].
  intros _ [err|]; cbn; [done|].
  intros _ _ _ [err|]; cbn; done.
Qed.

Lemma loadNewConfig_locks : locks false false false loadNewConfig.
Proof.
  unfold loadNewConfig.
  apply (locks_bind false true false false (call Lock)); [done|].
  intros _. apply locks_defer_unlock.
  apply (locks_bind true true true true (call (Printf LogReloading))); [done|].
  intros _. apply (locks_bind true true true true (call DecodeFile)); [done|].
  intros err.
  apply (locks_bind true true true true
           (match err with Some e => Fatalln (LogLoadConfigFailed e) | None => mret tt end)).
  { by destruct err. }
  intros _. apply (locks_bind true true true true (call AuthStop)); [done|].
  intros _. apply setupAuth_locks.
Qed.

Lemma reloadLoop_locks (n : nat) : locks false false false (reloadLoop n).
Proof.
  induction n as [|n IH]; [done|].
  cbn [reloadLoop].
  apply (locks_bind false false false false loadNewConfig); [apply loadNewConfig_locks|].
  intros _. apply IH.
Qed.

Section HandlerLocks.
Context {ClientToStation : Type} `{!ProtoLib ClientToStation} `{!NetLib}.

Lemma processC2SWrapper_locks (m : option (C2SWrapper ClientToStation)) (clientAddr : byteslice) :
  locks false false false (processC2SWrapper m clientAddr).
Proof.
  unfold processC2SWrapper. destruct m as [x|]; [|done].
  destruct (decide _); [done|].
  destruct (string_slice_to _ _); done.
Qed.

Lemma register_locks (r : Request) :
  locks false false false (register (mkServer sendToZMQ) r).
Proof.
  unfold register.
  apply (locks_bind false false false false (call GetConfig)); [done|].
  intros c.
  apply (locks_bind false false false false
           (if logClientIP c
            then call (Printf (LogReceived (Method r) (Some (getRemoteAddr r)) (ContentLength r)))
            else call (Printf (LogReceived (Method r) None (ContentLength r))))).
  { by destruct (logClientIP c). }
  intros _. destruct (decide _); [done|].
  destruct (decide _); [done|].
  destruct (Body r) as [in_ [e|]]; [done|].
  destruct (Unmarshal in_) as [payload|e]; [|done].
  eapply locks_bind; [apply processC2SWrapper_locks|].
  intros [zmqPayload [e|]]; [done|].
  eapply locks_bind; [apply sendToZMQ_locks|].
  intros [e|]; done.
Qed.

Lemma program_of_locks (g : goroutine) : locks false false false (program_of g).
Proof.
  destruct g as [r|n]; cbn [program_of].
  - apply locks_recover, register_locks.
  - apply reloadLoop_locks.
Qed.
End HandlerLocks.


Lemma holder_after_app (a : option nat) (h h' : list (nat * Event)) :
  holder_after a (h ++ h') = holder_after (holder_after a h) h'.
Proof.
  revert a. induction h as [|[i [R op r]] h IH]; intros a; [done|]. cbn. apply IH.
Qed.

Lemma exclusive_from_app (a : option nat) (h h' : list (nat * Event)) :
  exclusive_from a (h ++ h') ↔ exclusive_from a h ∧ exclusive_from (holder_after a h) h'.
Proof.
  revert a. induction h as [|[i [R op r]] h IH]; intros a; cbn; [tauto|].
  rewrite IH. tauto.
Qed.

(** What one call does to the mutex. *)
Lemma handle_mutex {R} (op : Op R) (w w' : World) (r : R) :
  handle op w = Done r w' →
  match op with
  | Lock => mutex w = false ∧ mutex w' = true
  | Unlock => mutex w = true ∧ mutex w' = false
  | _ => mutex w' = mutex w
  end.
Proof.
  destruct op; cbn; intros Hdone; try by simplify_eq.
  - by destruct (mutex w) eqn:?; simplify_eq.
  - by destruct (mutex w) eqn:?; simplify_eq.
  - by destruct (decodeInto _ _); simplify_eq.
  - by destruct (fs _ !! _); simplify_eq.
  - by destruct (zmq_AuthStart _ _); simplify_eq.
  - by destruct (zmq_ServerAuthCurve _ _ _ _); simplify_eq.
Qed.

Lemma consistent_step (σ σ' : System) :
  consistent σ → step σ σ' → consistent σ'.
Proof.
  intros (Hex & Hmu & Hth) Hstep.
  destruct Hstep as [σ i R op k r w' Hrun Hi Hdone| | |]; [|done..].
  unfold consistent; cbn [history world threads].
  set (holder := holder_after None (history σ)) in *.
  specialize (Hth i _ Hi) as Hp. cbn in Hp.
  destruct (permit op (bool_decide (holder = Some i))) as [a'|] eqn:Hpermit; [|done].
  specialize (Hp r). apply handle_mutex in Hdone.
  rewrite exclusive_from_app, holder_after_app. fold holder.
  assert (Hnew : holder_after holder (map (pair i) (record op r)) = next_holder i op holder).
  { by destruct op. }
  rewrite Hnew.
  assert (Hallowed : allowed_at i op holder ∧ a' = bool_decide (next_holder i op holder = Some i)
            ∧ mutex w' = bool_decide (next_holder i op holder ≠ None)
            ∧ ∀ j, j ≠ i → bool_decide (next_holder i op holder = Some j)
                           = bool_decide (holder = Some j)).
  { destruct op; cbn in *; repeat case_bool_decide; simplify_eq/=;
      destruct Hdone; split_and!; intros; repeat case_bool_decide; simplify_eq/=; try done;
      congruence. }
  destruct Hallowed as (Hal & Ha' & Hmu' & Hothers).
  split_and!; [done| |done|].
  - destruct op; cbn; done.
  - intros j p Hj. apply list_lookup_insert_Some in Hj as [(Hij & Hp' & _)|[Hne Hj]].
    + subst j p. by rewrite <- Ha'.
    + rewrite Hothers by done. by apply Hth.
Qed.

Lemma fire_rtc (i : nat) (σ : System) : rtc step σ (fire i σ).
Proof.
  unfold fire. destruct (halted σ) eqn:Hrun; [done|].
  destruct (threads σ !! i) as [[x|c|m|R op k]|] eqn:Hi; try done.
  - apply rtc_once. by eapply step_exit.
  - apply rtc_once. by eapply step_panic.
  - destruct (handle op (world σ)) as [r w'| |m] eqn:Hdone; [|done|].
    + apply rtc_once. by eapply step_call.
    + apply rtc_once. by eapply step_throw.
Qed.

Lemma schedule_rtc (order : list nat) (σ : System) : rtc step σ (schedule order σ).
Proof.
  revert σ. induction order as [|i order IH]; intros σ; [done|].
  cbn. etrans; [apply fire_rtc|apply IH].
Qed.


Lemma exclusive_critical (a : option nat) (h1 h2 : list (nat * Event)) (i : nat)
    {R} (op : Op R) (r : R) :
  exclusive_from a (h1 ++ (i, Ev op r) :: h2) →
  critical op = true →
  holder_after a h1 = Some i.
Proof.
  rewrite exclusive_from_app. intros [_ [Hop _]] Hcrit.
  destruct op; cbn in *; by (discriminate || apply Hop).
Qed.

(** While [j] holds the mutex, a critical call by another goroutine has to
    come after [j]'s [Unlock]. *)
Lemma exclusive_waits (j i : nat) (h2 h3 : list (nat * Event)) {R} (op : Op R) (r : R) :
  exclusive_from (Some j) (h2 ++ (i, Ev op r) :: h3) →
  critical op = true →
  i ≠ j →
  (j, Ev Unlock tt) ∈ h2.
Proof.
  intros Hex Hcrit Hne. induction h2 as [|[i' [R' op' r']] h2 IH].
  - pose proof (exclusive_critical (Some j) [] h3 i op r Hex Hcrit) as Hholder.
    cbn in Hholder. congruence.
  - cbn in Hex. destruct Hex as [Hal Hex].
    destruct op'; cbn in *; try (apply elem_of_cons; right; apply IH, Hex).
    + done.
    + simplify_eq. destruct r'. apply elem_of_cons. by left.
Qed.

Lemma consistent_rtc (σ σ' : System) :
  consistent σ → rtc step σ σ' → consistent σ'.
Proof. intros Hc Hsteps. induction Hsteps; eauto using consistent_step. Qed.

Section ExclusionClaim.
Context {ClientToStation : Type} `{!ProtoLib ClientToStation} `{!NetLib}.

Lemma consistent_spawn (w : World) (gs : list goroutine) :
  mutex w = false → consistent (spawn w gs).
Proof.
  intros Hfree. unfold consistent, spawn; cbn. split_and!; [done..|].
  intros i p Hi. apply list_lookup_fmap_Some_1 in Hi as (g & -> & _).
  apply program_of_locks.
Qed.

(** C7: [sendToZMQ] and [loadNewConfig] take the same mutex.  In every
    interleaving of any number of request handlers (sending through
    [sendToZMQ]) and the reload listener, started with the mutex free:
    the mutex has one holder at a time; every call on the socket, its
    authentication or the reloaded configuration -- a send, and each step
    of a reload from the config read to the key binding -- is made by the
    goroutine holding the mutex; and once a goroutine has locked, no other
    goroutine makes such a call until it has unlocked.  So a send falls
    entirely before a reload's [Lock] or after its [Unlock], never
    between [AuthStop] and the end of [setupAuth]. *)
Theorem C7_send_and_reload_exclude_each_other
    (w : World) (gs : list goroutine) (σ : System) :
  mutex w = false →
  rtc step (spawn w gs) σ →
  exclusive_from None (history σ)
  ∧ (mutex (world σ) = true ↔ ∃ j, holder_after None (history σ) = Some j)
  ∧ (∀ h1 h2 i {R} (op : Op R) (r : R),
       history σ = h1 ++ (i, Ev op r) :: h2 →
       critical op = true →
       holder_after None h1 = Some i)
  ∧ (∀ h1 h2 h3 j i {R} (op : Op R) (r : R),
       history σ = h1 ++ (j, Ev Lock tt) :: h2 ++ (i, Ev op r) :: h3 →
       critical op = true →
       i ≠ j →
       (j, Ev Unlock tt) ∈ h2).
Proof.
  intros Hfree Hsteps.
  pose proof (consistent_rtc _ _ (consistent_spawn w gs Hfree) Hsteps) as (Hex & Hmu & _).
  split_and!.
  - done.
  - rewrite Hmu. destruct (holder_after None (history σ)) as [j|].
    + rewrite bool_decide_eq_true_2 by done. split; [by exists j|done].
    + rewrite bool_decide_eq_false_2 by (by intros []). split; [done|by intros [j ?]].
  - intros h1 h2 i R op r Hh Hcrit. rewrite Hh in Hex.
    by eapply exclusive_critical.
  - intros h1 h2 h3 j i R op r Hh Hcrit Hne. rewrite Hh in Hex.
    apply exclusive_from_app in Hex as [_ [_ Hex]]. cbn in Hex.
    by eapply exclusive_waits.
Qed.
End ExclusionClaim.

(** * The claims on concrete inputs *)

(** A wrapper with no source and an explicit address: the forwarded source
    is API by defaulting, and the forwarded address is still the inbound
    one, not the observed client address. *)
Lemma C1_defaulted_source_keeps_inbound_address :
  (regIDLen `quot` 2 ≤ len (SharedSecret Sample.wrapper_addr_only))%Z
  ∧ outcome_of (run (processC2SWrapper (ProtoLib0 := Sample.codec)
                       (Some Sample.wrapper_addr_only) (Some Sample.observed)) Sample.w0)
    = Returned (Some (Sample.secret ++ Sample.claimed ++ Sample.vsp), None)
  ∧ RegistrationSource_ (outboundWrapper (Some Sample.wrapper_addr_only) (Some Sample.observed))
    = Some API
  ∧ RegistrationAddress (outboundWrapper (Some Sample.wrapper_addr_only) (Some Sample.observed))
    = Some Sample.claimed
  ∧ Some Sample.claimed ≠ Some Sample.observed.
Proof. split_and!; by vm_compute. Qed.

Lemma C1_witness :
  (regIDLen `quot` 2 ≤ len (SharedSecret Sample.wrapper_detector))%Z
  ∧ RegistrationAddress (outboundWrapper (Some Sample.wrapper_detector) (Some Sample.observed))
    = RegistrationAddress Sample.wrapper_detector
  ∧ RegistrationAddress (outboundWrapper (Some Sample.wrapper_plain) (Some Sample.observed))
    = Some Sample.observed.
Proof.
  split_and!.
  - by vm_compute.
  - apply (@C1_address_by_inbound_source _ Sample.codec Sample.wrapper_detector
             (Some Sample.observed) Sample.w0); by vm_compute.
  - apply (@C1_address_by_inbound_source _ Sample.codec Sample.wrapper_plain
             (Some Sample.observed) Sample.w0); [by vm_compute|by left].
Defined.

Lemma C2_witness :
  (regIDLen `quot` 2 ≤ len (SharedSecret Sample.wrapper_plain))%Z
  ∧ run (processC2SWrapper (ProtoLib0 := Sample.codec)
           (Some Sample.wrapper_plain) (Some Sample.observed)) Sample.w0
    = (Returned (Some (Sample.secret ++ Sample.observed ++ Sample.vsp), None), Sample.w0,
       [forwardingLine Sample.wrapper_plain])
  ∧ SharedSecret (outboundWrapper (Some Sample.wrapper_plain) (Some Sample.observed))
    = SharedSecret Sample.wrapper_plain
  ∧ RegistrationPayload (outboundWrapper (Some Sample.wrapper_plain) (Some Sample.observed))
    = RegistrationPayload Sample.wrapper_plain.
Proof.
  split; [by vm_compute|].
  apply (@C2_secret_and_payload_preserved _ Sample.codec Sample.wrapper_plain
           (Some Sample.observed) Sample.w0); [by vm_compute|reflexivity].
Defined.

Lemma C3_witness :
  (len (SharedSecret Sample.wrapper_weak) < regIDLen `quot` 2)%Z
  ∧ (∃ msg, run (processC2SWrapper (ProtoLib0 := Sample.codec)
                   (Some Sample.wrapper_weak) (Some Sample.observed)) Sample.w0
            = (Returned (None, Some (Errorf msg)), Sample.w0, []))
  ∧ sent (trace_of (run (register (ProtoLib0 := Sample.codec) (H := GoNet.lib)
                           (mkServer sendToZMQ) Sample.req_weak) Sample.w0)) = [].
Proof.
  pose proof (@C3_validation_error_iff_nil_or_short _ Sample.codec GoNet.lib
                (Some Sample.wrapper_weak) (Some Sample.observed) Sample.w0)
    as (_ & Hrejects & _ & Hhandler).
  split_and!.
  - by vm_compute.
  - apply Hrejects. right. by vm_compute.
  - eapply Hhandler; [reflexivity|reflexivity|by vm_compute].
Defined.

Lemma C4_witness :
  (regIDLen `quot` 2 ≤ len (SharedSecret Sample.wrapper_plain))%Z
  ∧ RegistrationSource_ Sample.wrapper_plain = None
  ∧ RegistrationSource_ (outboundWrapper (Some Sample.wrapper_plain) (Some Sample.observed))
    = Some API.
Proof.
  split_and!; [by vm_compute|reflexivity|].
  apply (@C4_source_defaults_to_API _ Sample.codec Sample.wrapper_plain
           (Some Sample.observed) Sample.w0); [by vm_compute|by left].
Defined.

Lemma C5_witness :
  mutex Sample.w0 = false
  ∧ responses (trace_of (run (register (ProtoLib0 := Sample.codec) (H := GoNet.lib)
                                (mkServer sendToZMQ) Sample.req_ok) Sample.w0))
    = [(204%Z, None)].
Proof.
  split; [reflexivity|].
  destruct (@C5_status_by_stage _ Sample.codec GoNet.lib Sample.req_ok Sample.w0 eq_refl)
    as (code & body & _ & Hresp & _ & _ & _ & _ & Hstage & _).
  rewrite Hresp.
  edestruct Hstage as (_ & _ & Hok);
    [reflexivity|by vm_compute|reflexivity|reflexivity|reflexivity|].
  destruct Hok as (-> & -> & _); reflexivity.
Defined.

Lemma C6_witness :
  GoNet.SplitHostPort "example.com:443" = ("example.com", "443", None)
  ∧ GoNet.ParseIP "example.com" = None
  ∧ getRemoteAddr Sample.req_hostname = "example.com:443"
  ∧ clientAddrBytesOf (H := GoNet.lib) (getRemoteAddr Sample.req_hostname) = None.
Proof.
  split_and!; [reflexivity..|].
  apply (@C6_unparsed_host_gives_nil_address GoNet.lib "example.com:443" "example.com" "443");
    [reflexivity|discriminate|reflexivity].
Defined.

Lemma C7_witness :
  mutex Sample.started = false
  ∧ length (history (schedule Sample.order Sample.serving)) = 18%nat
  ∧ exclusive_from None (history (schedule Sample.order Sample.serving)).
Proof.
  split_and!; [by vm_compute|by vm_compute|].
  pose proof (@C7_send_and_reload_exclude_each_other _ Sample.codec GoNet.lib
           Sample.started [Handler Sample.req_ok; Reloader 1]
           (schedule Sample.order Sample.serving) eq_refl
           (schedule_rtc Sample.order Sample.serving)) as [Hex _].
  exact Hex.
Defined.

Lemma C8_witness :
  mutex Sample.w0 = false
  ∧ Sample.station_key_old ∈ allowed_keys "*" (auth Sample.started)
  ∧ outcome_of (reloads [Sample.env_new] Sample.started) = Returned tt
  ∧ ∀ k, k ∈ allowed_keys "*" (auth (world_of (reloads [Sample.env_new] Sample.started))) →
         k ∈ [Sample.station_key_new].
Proof.
  split_and!; [by vm_compute|by vm_compute|by vm_compute|].
  assert (Hstart : run setupAuth Sample.w0
            = (Returned tt, Sample.started, trace_of (run setupAuth Sample.w0)))
    by (vm_compute; reflexivity).
  assert (Hreload : reloads ([] ++ [Sample.env_new]) Sample.started
            = (Returned tt, world_of (reloads [Sample.env_new] Sample.started),
               trace_of (reloads [Sample.env_new] Sample.started)))
    by (vm_compute; reflexivity).
  pose proof (C8_reload_installs_only_latest_keys Sample.w0 _ _ _ _ _ _
                eq_refl (λ _, eq_refl) Hstart Hreload) as (_ & _ & Hkeys & _).
  exact Hkeys.
Defined.

Lemma C9_witness :
  AuthType (cfg Sample.w_no_auth) ≠ "CURVE"
  ∧ run setupAuth Sample.w_no_auth = (Returned tt, Sample.w_no_auth, []).
Proof.
  assert (Hauth : AuthType (cfg Sample.w_no_auth) ≠ "CURVE") by (by vm_compute).
  split; [exact Hauth|].
  exact (C9_setupAuth_noop_without_CURVE Sample.w_no_auth Hauth).
Defined.

(** A 5-byte key file read into a 512-byte buffer: no panic; the key is
    the five bytes followed by 27 bytes of the buffer. *)
Lemma C10_short_key_file_does_not_panic :
  AuthType (cfg Sample.w_short_key) = "CURVE"
  ∧ fs (env Sample.w_short_key) !! PrivateKeyPath (cfg Sample.w_short_key)
    = Some Sample.short_keyfile
  ∧ (slen Sample.short_keyfile < 32)%nat
  ∧ outcome_of (run setupAuth Sample.w_short_key) = Returned tt
  ∧ curve_secretkey (sock (world_of (run setupAuth Sample.w_short_key)))
    = Some (Z85encode (replicate 5 x11 ++ replicate 27 x00)).
Proof. split_and!; try (vm_compute; reflexivity). vm_compute. lia. Qed.

Lemma C10_witness :
  AuthType (cfg Sample.w_tight_key) = "CURVE"
  ∧ fs (env Sample.w_tight_key) !! PrivateKeyPath (cfg Sample.w_tight_key)
    = Some Sample.tight_keyfile
  ∧ (cap Sample.tight_keyfile < 32)%nat
  ∧ run setupAuth Sample.w_tight_key
    = (Panicked "slice bounds out of range", Sample.w_tight_key,
       [Ev (ReadFile (PrivateKeyPath (cfg Sample.w_tight_key))) (Sample.tight_keyfile, None)]).
Proof.
  assert (Hauth : AuthType (cfg Sample.w_tight_key) = "CURVE") by reflexivity.
  assert (Hfile : fs (env Sample.w_tight_key) !! PrivateKeyPath (cfg Sample.w_tight_key)
                  = Some Sample.tight_keyfile) by (vm_compute; reflexivity).
  assert (Hcap : (cap Sample.tight_keyfile < 32)%nat) by (vm_compute; lia).
  split_and!; [exact Hauth|exact Hfile|exact Hcap|].
  pose proof (C10_panic_iff_capacity_below_32 Sample.w_tight_key Sample.tight_keyfile
                Hauth Hfile) as (Hpanic & _).
  exact (Hpanic Hcap).
Defined.

(** ** The spec's scenarios *)

(** A 10-byte secret, total length below the floor: 400, nothing sent. *)
Example scenario_short_request :
  trace_of (run (register (ProtoLib0 := Sample.codec) (H := GoNet.lib)
                   (mkServer sendToZMQ) Sample.req_short) Sample.w0)
  = [Ev (Printf (LogReceived "POST" None 11)) tt;
     Ev (Printf (LogShortContentLength 11 33)) tt;
     Ev (HttpError "Payload too small" 400) tt].
Proof. by vm_compute. Qed.

(** A 32-byte secret with no source and no address, seen from
    203.0.113.5: the forwarded message carries the mapped form of that
    address, and the answer is 204. *)
Example scenario_forwarded :
  sent (trace_of (run (register (ProtoLib0 := Sample.codec) (H := GoNet.lib)
                         (mkServer sendToZMQ) Sample.req_ok) Sample.w0))
  = [Some (Sample.secret ++ Sample.observed ++ Sample.vsp)]
  ∧ responses (trace_of (run (register (ProtoLib0 := Sample.codec) (H := GoNet.lib)
                                (mkServer sendToZMQ) Sample.req_ok) Sample.w0))
    = [(204%Z, None)].
Proof. split; by vm_compute. Qed.

(** The socket cannot take the message: 500, and the send is tried once. *)
Example scenario_transport_busy :
  let busy := set_env (Sample.env_busy (Sample.conf [Sample.station_key_old])) Sample.w0 in
  length (sent (trace_of (run (register (ProtoLib0 := Sample.codec) (H := GoNet.lib)
                                 (mkServer sendToZMQ) Sample.req_ok) busy))) = 1%nat
  ∧ responses (trace_of (run (register (ProtoLib0 := Sample.codec) (H := GoNet.lib)
                                (mkServer sendToZMQ) Sample.req_ok) busy))
    = [(500%Z, None)].
Proof. split; by vm_compute. Qed.

(** The host name in X-Forwarded-For: the message goes out with no
    registration address at all. *)
Example scenario_hostname_forwarded_without_address :
  sent (trace_of (run (register (ProtoLib0 := Sample.codec) (H := GoNet.lib)
                         (mkServer sendToZMQ) Sample.req_hostname) Sample.w0))
  = [Some (Sample.secret ++ Sample.vsp)].
Proof. by vm_compute. Qed.

(** * Further properties *)

(** ** The client address text *)

Lemma split_first_no_comma (s : string) : contains "," (split_first s) = false.
Proof.
  induction s as [|c s IH]; [done|]. cbn.
  destruct (Ascii.eqb c ",") eqn:Hc; [done|]. cbn. by rewrite Hc.
Qed.

Lemma TrimLeft_contains (c : ascii) (s : string) :
  contains c s = false → contains c (TrimLeft s) = false.
Proof.
  induction s as [|x s IH]; [done|]. cbn.
  intros [Hx Hs]%orb_false_elim. destruct (in_cutset x); [by apply IH|].
  cbn. by rewrite Hx, Hs.
Qed.

Lemma TrimRight_contains (c : ascii) (s : string) :
  contains c s = false → contains c (TrimRight s) = false.
Proof.
  induction s as [|x s IH]; [done|]. cbn.
  intros [Hx Hs]%orb_false_elim. specialize (IH Hs).
  destruct (TrimRight s) as [|y r].
  - destruct (in_cutset x); [done|]. cbn. by rewrite Hx.
  - cbn in *. by rewrite Hx, IH.
Qed.

Lemma TrimLeft_first (s : string) (c : ascii) :
  first_char (TrimLeft s) = Some c → in_cutset c = false.
Proof.
  induction s as [|x s IH]; [done|]. cbn.
  destruct (in_cutset x) eqn:Hx; [done|]. cbn. by intros [= <-].
Qed.

Lemma TrimRight_first (s : string) (c : ascii) :
  (∀ x, first_char s = Some x → in_cutset x = false) →
  first_char (TrimRight s) = Some c → in_cutset c = false.
Proof.
  destruct s as [|x s]; [done|]. cbn. intros Hfirst.
  destruct (TrimRight s); [destruct (in_cutset x) eqn:Hx|]; cbn; try done;
    intros [= <-]; by apply Hfirst.
Qed.

Lemma TrimRight_last (s : string) (c : ascii) :
  last_char (TrimRight s) = Some c → in_cutset c = false.
Proof.
  induction s as [|x s IH]; [done|]. cbn.
  destruct (TrimRight s) as [|y r].
  - destruct (in_cutset x) eqn:Hx; [done|]. cbn. by intros [= <-].
  - done.
Qed.

(** X1: when X-Forwarded-For has a non-empty first value, [getRemoteAddr]
    is decided by that value alone -- the peer address and any further
    header values play no part, even when the first entry is blank -- and
    the text it returns has no comma and neither starts nor ends with a
    space or a tab. *)
Theorem getRemoteAddr_forwarded_entry (r : Request) (v : string) (vs : list string) :
  Header r !! "X-Forwarded-For" = Some (v :: vs) →
  v ≠ "" →
  (∀ r' vs', Header r' !! "X-Forwarded-For" = Some (v :: vs') →
             getRemoteAddr r' = getRemoteAddr r)
  ∧ contains "," (getRemoteAddr r) = false
  ∧ (∀ c, first_char (getRemoteAddr r) = Some c → in_cutset c = false)
  ∧ (∀ c, last_char (getRemoteAddr r) = Some c → in_cutset c = false).
Proof.
  intros Hheader Hv.
  assert (Hget : ∀ r' vs', Header r' !! "X-Forwarded-For" = Some (v :: vs') →
                           getRemoteAddr r' = Trim (split_first v)).
  { intros r' vs' H'. unfold getRemoteAddr, Header_Get. rewrite H'.
    by rewrite decide_True. }
  rewrite (Hget r vs Hheader). split_and!.
  - intros r' vs' H'. by apply (Hget r' vs').
  - apply TrimRight_contains, TrimLeft_contains, split_first_no_comma.
  - intros c. apply TrimRight_first. intros x. apply TrimLeft_first.
  - intros c. apply TrimRight_last.
Qed.

(** ** What is logged of the secret *)

Lemma hex_prefix (n : nat) (l : bytes) :
  String.substring 0 (2 * n) (EncodeToString l) = EncodeToString (take n l).
Proof.
  revert l. induction n as [|n IH]; intros l.
  - cbn. by destruct (EncodeToString l).
  - destruct l as [|b l]; [done|].
    replace (2 * S n)%nat with (S (S (2 * n))) by lia. cbn [EncodeToString take String.substring].
    by rewrite IH.
Qed.

Section LogFacts.
Context {ClientToStation : Type} `{!ProtoLib ClientToStation}.

(** X2: of an accepted wrapper's secret, the log receives the hex text of
    the first 8 bytes and nothing else: 16 digits, whatever the secret's
    length, and no byte after the eighth has any influence on the line. *)
Theorem forwarding_log_shows_eight_bytes
    (m : C2SWrapper ClientToStation) (l : bytes) (clientAddr : byteslice) (w : World) :
  SharedSecret m = Some l →
  (8 ≤ length l)%nat →
  logs (trace_of (run (processC2SWrapper (Some m) clientAddr) w))
    = [LogForwarding (EncodeToString (take 8 l))
         (if decide (GetRegistrationSource (Some m) = Unspecified) then API
          else GetRegistrationSource (Some m))]
  ∧ String.length (EncodeToString (take 8 l)) = 16%nat.
Proof.
  intros Hsecret Hlen.
  rewrite processC2SWrapper_accepts.
  - unfold forwardingLine, trace_of. rewrite Hsecret.
    cbn [snd logs logged_by app default].
    rewrite <- (hex_prefix 8 l). split; [done|].
    rewrite (hex_prefix 8 l), EncodeToString_length, length_take. lia.
  - rewrite Hsecret. cbn. change (regIDLen `quot` 2) with 8%Z. lia.
Qed.

(** X3: normalising is idempotent on every accepted wrapper that names its
    source or gives no address: processing the forwarded wrapper again,
    with the same observed address, marshals the same message and logs
    the same line. *)
Theorem processC2SWrapper_idempotent
    (m : C2SWrapper ClientToStation) (clientAddr : byteslice) (w : World) :
  RegistrationAddress m = None ∨ GetRegistrationSource (Some m) ≠ Unspecified →
  (regIDLen `quot` 2 ≤ len (SharedSecret m))%Z →
  let out := outboundWrapper (Some m) clientAddr in
  outboundWrapper (Some out) clientAddr = out
  ∧ run (processC2SWrapper (Some out) clientAddr) w
    = run (processC2SWrapper (Some m) clientAddr) w.
Proof.
  intros Hm Hlen out.
  assert (Hout : outboundWrapper (Some out) clientAddr = out).
  { subst out. destruct m as [secret payload [[]|] [a|]], clientAddr as [c|];
      cbn in Hm; try (by destruct Hm); reflexivity. }
  split; [done|].
  rewrite !processC2SWrapper_accepts by done. rewrite Hout.
  do 2 f_equal. subst out. unfold forwardingLine.
  by destruct m as [secret payload [[]|] ?].
Qed.
End LogFacts.

(** ** The handler and the mutex *)

Lemma sendToZMQ_blocked (message : byteslice) (w : World) :
  mutex w = true → run (sendToZMQ message) w = (Deadlocked, w, []).
Proof. intros Hheld. cbn. by rewrite Hheld. Qed.

Section HandlerMutex.
Context {ClientToStation : Type} `{!ProtoLib ClientToStation} `{!NetLib}.

(** X4: while the mutex is held (a reload is running), a request that
    fails a check is still answered at once -- 405, 400 or 500 -- while a
    request that passes every check waits at [Lock]: nothing has been sent
    and no response has been written. *)
Theorem register_while_locked (r : Request) (w : World) :
  mutex w = true →
  let res := run (register (mkServer sendToZMQ) r) w in
  world_of res = w
  ∧ sent (trace_of res) = []
  ∧ ((outcome_of res = Returned tt
      ∧ ∃ code body, responses (trace_of res) = [(code, body)]
                     ∧ (code = 405 ∨ code = 400 ∨ code = 500)%Z)
     ∨ (outcome_of res = Deadlocked
        ∧ responses (trace_of res) = []
        ∧ Method r = "POST"
        ∧ (33 ≤ ContentLength r)%Z
        ∧ ∃ in_ payload b,
            Body r = (in_, None) ∧ Unmarshal in_ = inl payload
            ∧ (8 ≤ len (SharedSecret payload))%Z
            ∧ Marshal (outboundWrapper (Some payload) (clientAddrBytesOf (getRemoteAddr r)))
              = inl b)).
Proof.
  intros Hheld res. subst res. rewrite register_run.
  change MinimumRequestLength with 33%Z. change (regIDLen `quot` 2) with 8%Z.
  destruct (decide (Method r ≠ "POST")) as [Hm|Hm].
  { split_and!; [done..|]. left. split; [done|]. exists 405%Z, None. by auto. }
  apply dec_stable in Hm.
  destruct (decide (ContentLength r < 33)%Z) as [Hc|Hc].
  { split_and!; [done..|]. left. split; [done|]. eexists 400%Z, _. by auto. }
  destruct (Body r) as [in_ [e|]] eqn:Hbody.
  { split_and!; [done..|]. left. split; [done|]. eexists 400%Z, _. by auto. }
  destruct (Unmarshal in_) as [payload|e] eqn:Hdec.
  2:{ split_and!; [done..|]. left. split; [done|]. eexists 400%Z, _. by auto. }
  destruct (decide (len (SharedSecret payload) < 8)%Z) as [Hs|Hs].
  { split_and!; [done..|]. left. split; [done|]. eexists 500%Z, _. by auto. }
  unfold protoMarshal.
  destruct (Marshal _) as [b|e] eqn:Hmar.
  2:{ split_and!; [done..|]. left. split; [done|]. eexists 500%Z, _. by auto. }
  cbn [messageAccepter]. rewrite sendToZMQ_blocked by done.
  split_and!; [done..|]. right. split_and!; [done|done|done|lia|].
  exists in_, payload, b. split_and!; [done|done|lia|done].
Qed.

(** X5: a request never changes the server (configuration, authentication,
    socket options, mutex), hands at most one message to the socket -- no
    retry on failure -- and locks the mutex exactly when it sends: requests
    rejected by a check take no lock at all. *)
Theorem register_sends_at_most_once (r : Request) (w : World) :
  mutex w = false →
  let res := run (register (mkServer sendToZMQ) r) w in
  world_of res = w
  ∧ (length (sent (trace_of res)) ≤ 1)%nat
  ∧ lock_count (trace_of res) = length (sent (trace_of res))
  ∧ unlock_count (trace_of res) = length (sent (trace_of res))
  ∧ (sent (trace_of res) ≠ [] → Method r = "POST" ∧ (33 ≤ ContentLength r)%Z).
Proof.
  intros Hfree res. subst res. rewrite register_run.
  change MinimumRequestLength with 33%Z.
  destruct (decide (Method r ≠ "POST")) as [Hm|Hm]; [split_and!; cbn; (done || lia)|].
  apply dec_stable in Hm.
  destruct (decide (ContentLength r < 33)%Z) as [Hc|Hc]; [split_and!; cbn; (done || lia)|].
  destruct (Body r) as [in_ [e|]]; [split_and!; cbn; (done || lia)|].
  destruct (Unmarshal in_) as [payload|e]; [|split_and!; cbn; (done || lia)].
  destruct (decide _); [split_and!; cbn; (done || lia)|].
  destruct (protoMarshal _) as [zmqPayload [e|]]; [split_and!; cbn; (done || lia)|].
  cbn [messageAccepter]. rewrite sendToZMQ_run by done.
  destruct (transport (env w) zmqPayload); (split_and!; cbn; try (done || lia); intros _; split; [done|lia]).
Qed.

(** X6: with client-IP logging off, what the handler logs and answers does
    not depend on where the request came from: two requests that differ
    only in X-Forwarded-For and peer address produce the same log lines
    and the same response, provided the errors of the marshaller and of
    the socket do not depend on the address either. *)
Theorem register_logs_hide_client_address (r r' : Request) (w : World) :
  logClientIP (cfg w) = false →
  mutex w = false →
  Method r = Method r' →
  ContentLength r = ContentLength r' →
  Body r = Body r' →
  (∀ payload a a',
     (protoMarshal (outboundWrapper (Some payload) a)).2
     = (protoMarshal (outboundWrapper (Some payload) a')).2) →
  (∀ m m', transport (env w) m = transport (env w) m') →
  logs (trace_of (run (register (mkServer sendToZMQ) r) w))
    = logs (trace_of (run (register (mkServer sendToZMQ) r') w))
  ∧ responses (trace_of (run (register (mkServer sendToZMQ) r) w))
    = responses (trace_of (run (register (mkServer sendToZMQ) r') w)).
Proof.
  intros Hoff Hfree Hmethod Hlength Hbody Hmarshal Hsocket.
  rewrite !register_run. unfold receivedLine. rewrite Hoff, <- Hmethod, <- Hlength, <- Hbody.
  destruct (decide (Method r ≠ "POST")); [done|].
  destruct (decide (ContentLength r < MinimumRequestLength)%Z); [done|].
  destruct (Body r) as [in_ [e|]]; [done|].
  destruct (Unmarshal in_) as [payload|e]; [|done].
  destruct (decide _); [done|].
  specialize (Hmarshal payload (clientAddrBytesOf (getRemoteAddr r))
                (clientAddrBytesOf (getRemoteAddr r'))).
  destruct (protoMarshal (outboundWrapper (Some payload) (clientAddrBytesOf (getRemoteAddr r))))
    as [z e], (protoMarshal (outboundWrapper (Some payload) (clientAddrBytesOf (getRemoteAddr r'))))
    as [z' e'].
  cbn in Hmarshal. subst e'. destruct e as [e|]; [done|].
  cbn [messageAccepter]. rewrite !sendToZMQ_run by done.
  rewrite (Hsocket z' z). by destruct (transport (env w) z).
Qed.

(** X17: the forwarded-for header is trusted over the connection.  Two
    requests with the same method, length, body and first X-Forwarded-For
    entry are handled identically -- same log, same forwarded message, same
    response -- whatever peers they really came from. *)
Theorem register_trusts_forwarded_header
    (s : server) (r r' : Request) (w : World) (v : string) (vs vs' : list string) :
  Header r !! "X-Forwarded-For" = Some (v :: vs) →
  Header r' !! "X-Forwarded-For" = Some (v :: vs') →
  v ≠ "" →
  Method r = Method r' →
  ContentLength r = ContentLength r' →
  Body r = Body r' →
  run (register s r) w = run (register s r') w.
Proof.
  intros Hr Hr' Hv Hmethod Hlength Hbody.
  assert (Haddr : getRemoteAddr r = getRemoteAddr r').
  { unfold getRemoteAddr, Header_Get. rewrite Hr, Hr'. by rewrite !decide_True. }
  rewrite !register_run. unfold receivedLine.
  by rewrite Haddr, Hmethod, Hlength, Hbody.
Qed.
End HandlerMutex.

(** ** Reloading: how it ends and what it leaves *)

(** X7: a reload that finds the mutex held waits without having done
    anything.  One that gets the mutex ends in one of three ways: it
    returns with the mutex released; the process exits with status 1, the
    mutex never released; or it panics on the key slice, after the deferred
    [Unlock] has released the mutex.  It never crashes on the mutex. *)
Theorem loadNewConfig_ends (w : World) :
  (mutex w = true → run loadNewConfig w = (Deadlocked, w, []))
  ∧ (mutex w = false →
     let res := run loadNewConfig w in
     (outcome_of res = Returned tt ∧ mutex (world_of res) = false
      ∧ lock_count (trace_of res) = 1%nat ∧ unlock_count (trace_of res) = 1%nat)
     ∨ (outcome_of res = Exited 1 ∧ mutex (world_of res) = true
        ∧ lock_count (trace_of res) = 1%nat ∧ unlock_count (trace_of res) = 0%nat)
     ∨ (outcome_of res = Panicked "slice bounds out of range" ∧ mutex (world_of res) = false
        ∧ lock_count (trace_of res) = 1%nat ∧ unlock_count (trace_of res) = 1%nat)).
Proof.
  split.
  { intros Hheld. unfold loadNewConfig. cbn. by rewrite Hheld. }
  intros Hfree res. subst res. rewrite loadNewConfig_run by done. cbn zeta.
  destruct (decodeInto (env w) (cfg w)) as [c [e|]]; cbn [fst snd].
  { right. left. by split_and!. }
  rewrite setupAuth_run. cbn [cfg env auth sock set_auth set_cfg set_mutex].
  destruct (decide _); [|left; by split_and!]. cbn zeta.
  destruct (fs _ !! _); [|right; left; by split_and!].
  destruct (slice_to _ _); [|right; right; by split_and!].
  destruct (zmq_AuthStart _ _) as [[?|] ?]; [right; left; by split_and!|].
  destruct (zmq_ServerAuthCurve _ _ _ _) as [[?|] ?]; [right; left; by split_and!|].
  left. by split_and!.
Qed.

(** X8: a configuration file that does not decode stops the process before
    authentication is touched: [AuthStop] has not been called, the auth
    subsystem and the socket are as they were, the mutex is still held, and
    the server's configuration is whatever the failed decode left. *)
Theorem loadNewConfig_bad_config (w : World) (c : config) (e : error) :
  mutex w = false →
  decodeInto (env w) (cfg w) = (c, Some e) →
  run loadNewConfig w
    = (Exited 1, set_cfg c (set_mutex true w),
       [Ev Lock tt; Ev (Printf LogReloading) tt; Ev DecodeFile (Some e);
        Ev (Printf (LogLoadConfigFailed e)) tt])
  ∧ auth (world_of (run loadNewConfig w)) = auth w
  ∧ sock (world_of (run loadNewConfig w)) = sock w.
Proof.
  intros Hfree Hdecode. rewrite loadNewConfig_run by done. by rewrite Hdecode.
Qed.

(** X9: a reload that returns with auth type "CURVE" has installed
    everything from the environment as it is now: the key file was read
    again, the auth subsystem runs with the configured verbosity and
    exactly the configured station keys on domain "*", and the socket is a
    CURVE server on domain "*" with the key made of the first 32 bytes the
    read returned. *)
Theorem reload_installs_curve (w w' : World) (t : list Event) :
  mutex w = false →
  auth_wf (auth w) →
  run loadNewConfig w = (Returned tt, w', t) →
  AuthType (cfg w') = "CURVE" →
  ∃ data,
    fs (env w) !! PrivateKeyPath (cfg w') = Some data
    ∧ (32 ≤ cap data)%nat
    ∧ auth_init (auth w') = true
    ∧ auth_verbose (auth w') = AuthVerbose (cfg w')
    ∧ auth_pubkeys (auth w') = {[ "*" := list_to_set (StationPublicKeys (cfg w')) ]}
    ∧ sock w' = mkSocket (Some "*") true (Some (Z85encode (take 32 (arr data)))).
Proof.
  intros Hfree Hwf Hrun.
  rewrite loadNewConfig_run in Hrun by done. cbn zeta in Hrun.
  destruct (decodeInto (env w) (cfg w)) as [c [err|]]; [done|].
  cbn [fst snd] in Hrun. rewrite setupAuth_run in Hrun.
  cbn [env cfg auth sock set_mutex set_cfg set_auth] in Hrun.
  destruct (zmq_AuthStop_stopped _ Hwf) as [Hinit Hkeys].
  destruct (decide (AuthType c = "CURVE")) as [Hcurve|Hcurve].
  2:{ simplify_eq. cbn. done. }
  cbn zeta in Hrun.
  destruct (fs (env w) !! PrivateKeyPath c) as [data|] eqn:Hfile; [|done].
  unfold slice_to in Hrun. destruct (decide (32 ≤ cap data)%nat) as [Hcap|]; [|done].
  unfold zmq_AuthStart in Hrun. cbn [zmq_AuthSetVerbose auth_init] in Hrun.
  rewrite Hinit in Hrun.
  destruct (authStartErr (env w)); [done|].
  unfold zmq_ServerAuthCurve in Hrun.
  destruct (serverAuthErr (env w)); [done|].
  simplify_eq. intros _. exists data. cbn. split_and!; try done.
  rewrite Hkeys, lookup_empty. cbn. by rewrite (left_id_L ∅ (∪)), insert_empty.
Qed.

(** X10: a reload that returns with an auth type other than "CURVE" has
    stopped the auth subsystem and done nothing else: the socket's security
    options -- a CURVE key bound earlier included -- are left as they
    were, and no key file was read. *)
Theorem reload_without_curve (w w' : World) (t : list Event) :
  mutex w = false →
  run loadNewConfig w = (Returned tt, w', t) →
  AuthType (cfg w') ≠ "CURVE" →
  sock w' = sock w
  ∧ auth w' = zmq_AuthStop (auth w)
  ∧ auth_init (auth w') = false
  ∧ t = [Ev Lock tt; Ev (Printf LogReloading) tt; Ev DecodeFile None;
         Ev AuthStop tt; Ev Unlock tt].
Proof.
  intros Hfree Hrun.
  rewrite loadNewConfig_run in Hrun by done. cbn zeta in Hrun.
  destruct (decodeInto (env w) (cfg w)) as [c [err|]]; [done|].
  cbn [fst snd] in Hrun. rewrite setupAuth_run in Hrun.
  cbn [env cfg auth sock set_mutex set_cfg set_auth] in Hrun.
  destruct (decide (AuthType c = "CURVE")) as [Hcurve|Hcurve].
  - cbn zeta in Hrun.
    destruct (fs _ !! _); [|done]. destruct (slice_to _ _); [|done].
    destruct (zmq_AuthStart _ _) as [[?|] ?]; [done|].
    destruct (zmq_ServerAuthCurve _ _ _ _) as [[?|] ?]; [done|].
    simplify_eq. cbn. done.
  - simplify_eq. cbn. intros _. split_and!; try done.
    unfold zmq_AuthStop. by destruct (auth_init (auth w)) eqn:Hinit.
Qed.


Lemma zmq_AuthStop_clean (a : ZmqAuth) :
  auth_clean a → zmq_AuthStop a = mkZmqAuth false (auth_verbose a) ∅ ∅.
Proof.
  intros Hclean. unfold zmq_AuthStop.
  destruct (auth_init a) eqn:Hinit; [done|].
  destruct (Hclean Hinit) as [Hallow Hkeys].
  destruct a; simplify_eq/=. done.
Qed.

(** X12: reloading is repeatable.  After a reload that returned, a second
    signal with the files unchanged (decoding again yields the same
    configuration) makes the same calls and leaves the server exactly as
    the first reload left it. *)
Theorem reload_twice_same (w w1 : World) (t1 : list Event) :
  mutex w = false →
  auth_clean (auth w) →
  run loadNewConfig w = (Returned tt, w1, t1) →
  decodeInto (env w) (cfg w1) = (cfg w1, None) →
  run loadNewConfig w1 = (Returned tt, w1, t1).
Proof.
  intros Hfree Hclean Hrun Hsame.
  rewrite loadNewConfig_run in Hrun by done. cbn zeta in Hrun.
  destruct (decodeInto (env w) (cfg w)) as [c [err|]] eqn:Hdecode; [done|].
  cbn [fst snd] in Hrun. rewrite setupAuth_run in Hrun.
  cbn [env cfg auth sock mutex set_mutex set_cfg set_auth set_sock] in Hrun.
  rewrite (zmq_AuthStop_clean _ Hclean) in Hrun.
  destruct (decide (AuthType c = "CURVE")) as [Hcurve|Hcurve].
  - cbn zeta in Hrun.
    destruct (fs (env w) !! PrivateKeyPath c) as [data|] eqn:Hfile; [|done].
    destruct (slice_to 32 data) as [key|] eqn:Hkey; [|done].
    unfold zmq_AuthStart in Hrun. cbn [zmq_AuthSetVerbose auth_init auth_verbose auth_allow auth_pubkeys] in Hrun.
    destruct (authStartErr (env w)) eqn:Hstart; [done|].
    unfold zmq_ServerAuthCurve in Hrun.
    destruct (serverAuthErr (env w)) eqn:Hbind; [done|].
    simplify_eq. cbn in Hsame.
    rewrite loadNewConfig_run by done. cbn zeta.
    cbn [env cfg auth sock mutex set_mutex set_cfg set_auth set_sock]. rewrite Hsame. cbn [fst snd].
    rewrite setupAuth_run. cbn [env cfg auth sock mutex set_mutex set_cfg set_auth set_sock].
    rewrite decide_True by done. cbn zeta. rewrite Hfile, Hkey.
    unfold zmq_AuthStart, zmq_AuthStop. cbn. rewrite Hstart.
    unfold zmq_ServerAuthCurve. rewrite Hbind. reflexivity.
  - simplify_eq. cbn in Hsame.
    rewrite loadNewConfig_run by done. cbn zeta.
    cbn [env cfg auth sock mutex set_mutex set_cfg set_auth set_sock]. rewrite Hsame. cbn [fst snd].
    rewrite setupAuth_run. cbn [env cfg auth sock mutex set_mutex set_cfg set_auth set_sock].
    rewrite decide_False by done. reflexivity.
Qed.

(** ** Progress *)

Lemma handle_Wait {R} (op : Op R) (w : World) :
  handle op w = Wait → mutex w = true ∧ permit op true = None.
Proof.
  destruct op; cbn; try done.
  - by destruct (mutex w).
  - by destruct (mutex w).
  - by destruct (decodeInto _ _).
  - by destruct (fs _ !! _).
  - by destruct (zmq_AuthStart _ _).
  - by destruct (zmq_ServerAuthCurve _ _ _ _).
Qed.

Lemma handle_Throw {R} (op : Op R) (w : World) (m : string) :
  handle op w = Throw m → mutex w = false ∧ permit op false = None.
Proof.
  destruct op; cbn; try done.
  - by destruct (mutex w).
  - by destruct (mutex w).
  - by destruct (decodeInto _ _).
  - by destruct (fs _ !! _).
  - by destruct (zmq_AuthStart _ _).
  - by destruct (zmq_ServerAuthCurve _ _ _ _).
Qed.

(** The holder of the mutex is one of the goroutines. *)
Lemma holder_is_thread_step (σ σ' : System) :
  (∀ j, holder_after None (history σ) = Some j → is_Some (threads σ !! j)) →
  step σ σ' →
  ∀ j, holder_after None (history σ') = Some j → is_Some (threads σ' !! j).
Proof.
  intros Hinv Hstep.
  destruct Hstep as [σ i R op k r w' Hrun Hi Hdone| | |]; [|done..].
  cbn [history threads]. intros j. rewrite holder_after_app.
  assert (Hlen : (i < length (threads σ))%nat) by by eapply lookup_lt_Some.
  assert (Hnew : holder_after (holder_after None (history σ)) (map (pair i) (record op r))
                 = next_holder i op (holder_after None (history σ))) by by destruct op.
  rewrite Hnew. intros Hj. apply lookup_lt_is_Some. rewrite length_insert.
  destruct op; cbn in Hj; try (by apply lookup_lt_is_Some, Hinv).
  by simplify_eq.
Qed.

Lemma holder_is_thread_rtc (σ σ' : System) :
  (∀ j, holder_after None (history σ) = Some j → is_Some (threads σ !! j)) →
  rtc step σ σ' →
  ∀ j, holder_after None (history σ') = Some j → is_Some (threads σ' !! j).
Proof. intros Hinv Hsteps. induction Hsteps; eauto using holder_is_thread_step. Qed.

Lemma enabled_step (i : nat) (σ : System) :
  halted σ = false → enabled i σ → ∃ σ', step σ σ'.
Proof.
  unfold enabled. intros Hrun Hi.
  destruct (threads σ !! i) as [[x|c|m|R op k]|] eqn:Hthread; try done.
  - eexists. by eapply step_exit.
  - eexists. by eapply step_panic.
  - destruct (handle op (world σ)) as [r w'| |m] eqn:Hdone; [|done|].
    + eexists. by eapply step_call.
    + eexists. by eapply step_throw.
Qed.

Lemma returned_or_not (l : list (Prog unit)) :
  (∀ i p, l !! i = Some p → ∃ x, p = Ret x)
  ∨ (∃ i p, l !! i = Some p ∧ ∀ x, p ≠ Ret x).
Proof.
  induction l as [|p l [IH|(i & q & Hq & Hne)]].
  - left. by intros i p.
  - destruct p as [x|c|m|R op k].
    + left. intros [|i] q Hq; [|by eapply IH]. simplify_eq/=. by eexists.
    + right. by exists 0%nat, (Exit c).
    + right. by exists 0%nat, (Panic m).
    + right. by exists 0%nat, (Do op k).
  - right. by exists (S i), q.
Qed.

Section Progress.
Context {ClientToStation : Type} `{!ProtoLib ClientToStation} `{!NetLib}.

(** X13: handlers and the reload listener never deadlock.  In every
    reachable state of a running process, the goroutine holding the mutex
    can make its next step, and unless every goroutine has returned some
    goroutine can step. *)
Theorem no_deadlock (w : World) (gs : list goroutine) (σ : System) :
  mutex w = false →
  rtc step (spawn w gs) σ →
  halted σ = false →
  (∀ j, holder_after None (history σ) = Some j → enabled j σ)
  ∧ (returned σ ∨ ∃ i σ', enabled i σ ∧ step σ σ').
Proof.
  intros Hfree Hsteps Hrun.
  pose proof (consistent_rtc _ _ (consistent_spawn w gs Hfree) Hsteps) as (_ & Hmu & Hth).
  assert (Hholder : ∀ j, holder_after None (history σ) = Some j → is_Some (threads σ !! j)).
  { eapply holder_is_thread_rtc; [|done]. by intros j. }
  assert (Hheld : ∀ j, holder_after None (history σ) = Some j → enabled j σ).
  { intros j Hj. destruct (Hholder j Hj) as [p Hp].
    specialize (Hth j p Hp). rewrite Hj in Hth.
    rewrite bool_decide_eq_true_2 in Hth by done.
    unfold enabled. rewrite Hp. destruct p as [x|c|m|R op k]; cbn in Hth; try done.
    intros [_ Hperm]%handle_Wait. by rewrite Hperm in Hth. }
  split; [done|].
  destruct (holder_after None (history σ)) as [j|] eqn:Hj.
  - right. destruct (enabled_step j σ Hrun (Hheld j eq_refl)) as [σ' Hstep].
    exists j, σ'. by split; [apply Hheld|].
  - rewrite bool_decide_eq_false_2 in Hmu by (by intros []).
    destruct (returned_or_not (threads σ)) as [Hall|(i & p & Hp & Hne)]; [by left|].
    right.
    assert (Hi : enabled i σ).
    { unfold enabled. rewrite Hp. destruct p as [x|c|m|R op k]; try done.
      - by destruct (Hne x).
      - intros [Hlocked _]%handle_Wait. congruence. }
    destruct (enabled_step i σ Hrun Hi) as [σ' Hstep]. by exists i, σ'.
Qed.
End Progress.

(** ** What a request cannot do *)

Lemma no_exit_bind {A B} (p : Prog A) (f : A → Prog B) :
  no_exit p → (∀ x, no_exit (f x)) → no_exit (bind p f).
Proof.
  induction p as [x|c|m|R op k IH]; cbn; intros Hp Hf; try done.
  intros r. by apply IH.
Qed.

Lemma harmless_recover (p : Prog unit) : no_exit p → harmless (recover_ p).
Proof.
  induction p as [x|c|m|R op k IH]; cbn; intros Hp; try done.
  intros r. by apply IH.
Qed.

Lemma sendToZMQ_no_exit (message : byteslice) : no_exit (sendToZMQ message).
Proof. by cbn. Qed.

Section Quiet.
Context {ClientToStation : Type} `{!ProtoLib ClientToStation} `{!NetLib}.

Lemma processC2SWrapper_no_exit (m : option (C2SWrapper ClientToStation)) (clientAddr : byteslice) :
  no_exit (processC2SWrapper m clientAddr).
Proof.
  unfold processC2SWrapper. destruct m as [x|]; [|done].
  destruct (decide _); [done|]. by destruct (string_slice_to _ _).
Qed.

Lemma register_no_exit (r : Request) : no_exit (register (mkServer sendToZMQ) r).
Proof.
  unfold register.
  apply (no_exit_bind (call GetConfig)); [done|]. intros c.
  apply (no_exit_bind
           (if logClientIP c
            then call (Printf (LogReceived (Method r) (Some (getRemoteAddr r)) (ContentLength r)))
            else call (Printf (LogReceived (Method r) None (ContentLength r))))).
  { by destruct (logClientIP c). }
  intros _. destruct (decide _); [done|]. destruct (decide _); [done|].
  destruct (Body r) as [in_ [e|]]; [done|].
  destruct (Unmarshal in_) as [payload|e]; [|done].
  apply no_exit_bind; [apply processC2SWrapper_no_exit|].
  intros [zmqPayload [e|]]; [done|].
  apply no_exit_bind; [apply sendToZMQ_no_exit|].
  by intros [e|].
Qed.

(** X14: no request can bring the process down.  As long as no reload
    signal arrives, a server handling any requests in any interleaving
    never stops: a handler has no exit, its panics are recovered, and it
    never unlocks a mutex it does not hold. *)
Theorem requests_never_stop_the_process (w : World) (rs : list Request) (σ : System) :
  mutex w = false →
  rtc step (spawn w ((Handler <$> rs) ++ [Reloader 0])) σ →
  halted σ = false.
Proof.
  intros Hfree Hsteps.
  set (gs := (Handler <$> rs) ++ [Reloader 0]) in *.
  assert (Hinit : ∀ i p, threads (spawn w gs) !! i = Some p → harmless p).
  { intros i p Hi. cbn in Hi. apply list_lookup_fmap_Some_1 in Hi as (g & -> & Hg).
    subst gs. apply lookup_app_Some in Hg as [Hg|[_ Hg]].
    - apply list_lookup_fmap_Some_1 in Hg as (r & -> & _).
      apply harmless_recover, register_no_exit.
    - apply list_lookup_singleton_Some in Hg as [_ <-]. done. }
  pose proof (consistent_spawn w gs Hfree) as Hcons.
  assert (Hrun : halted (spawn w gs) = false) by done.
  clearbody gs. revert Hinit Hcons Hrun.
  induction Hsteps as [σ|σ σ' σ'' Hstep _ IH]; intros Hharm Hcons Hrun; [done|].
  apply IH.
  - destruct Hstep as [σ i R op k r w' _ Hi _| | |]; [|done..].
    cbn [threads]. intros j p Hj.
    apply list_lookup_insert_Some in Hj as [(-> & <- & _)|[_ Hj]]; [|by eapply Hharm].
    by apply (Hharm _ _ Hi).
  - by eapply consistent_step.
  - destruct Hstep as [σ i R op k r w' _ Hi _|σ i R op k m _ Hi Hthrow|σ i c _ Hi|σ i m _ Hi].
    + done.
    + exfalso. destruct Hcons as (_ & Hmu & Hth).
      specialize (Hth i _ Hi). cbn in Hth.
      apply handle_Throw in Hthrow as [Hfree' Hperm].
      destruct (bool_decide (holder_after None (history σ) = Some i)) eqn:Hholder.
      * apply bool_decide_eq_true_1 in Hholder. rewrite Hholder in Hmu.
        rewrite bool_decide_eq_true_2 in Hmu by done. congruence.
      * by rewrite Hperm in Hth.
    + by destruct (Hharm _ _ Hi).
    + by destruct (Hharm _ _ Hi).
Qed.
End Quiet.

(** ** The reload listener *)





Section AddressPresence.
Context {ClientToStation : Type}.

(** X16: the forwarded wrapper lacks a registration address exactly when
    the handler passed a nil client address and the inbound wrapper either
    has no address or names API as its source; in every other case the
    address is populated. *)
Theorem forwarded_address_missing_iff
    (m : C2SWrapper ClientToStation) (clientAddr : byteslice) :
  RegistrationAddress (outboundWrapper (Some m) clientAddr) = None
  ↔ clientAddr = None
    ∧ (RegistrationAddress m = None ∨ RegistrationSource_ m = Some API).
Proof.
  destruct m as [secret payload [[]|] [a|]], clientAddr as [c|]; cbn;
    (split; [intros Hnone|intros [Hnil [Hin|Hin]]]); simplify_eq; auto.
Qed.
End AddressPresence.

(** ** Package net in the examples *)

Lemma GoNet_parseIPv4_16 (s : string) (l : bytes) :
  GoNet.parseIPv4 s = Some l → length l = 16%nat.
Proof.
  unfold GoNet.parseIPv4.
  destruct (GoNet.fields s "") as [|a [|b [|c [|d [|]]]]]; try done.
  destruct (GoNet.octet a), (GoNet.octet b), (GoNet.octet c), (GoNet.octet d); cbn; try done.
  by intros [= <-].
Qed.

Lemma GoNet_ParseIP_16 (s : string) (l : bytes) :
  GoNet.ParseIP s = Some l → length l = 16%nat.
Proof.
  unfold GoNet.ParseIP.
  destruct (GoNet.IndexByte s "."), (GoNet.IndexByte s ":"); try done.
  - destruct (decide _); [apply GoNet_parseIPv4_16|done].
  - apply GoNet_parseIPv4_16.
Qed.

(** ** The further properties on concrete inputs *)

Lemma getRemoteAddr_forwarded_entry_witness :
  Header Cases.req_blank !! "X-Forwarded-For" = Some [" , 10.0.0.1"]
  ∧ getRemoteAddr Cases.req_blank = ""
  ∧ contains "," (getRemoteAddr Cases.req_blank) = false.
Proof.
  assert (Hheader : Header Cases.req_blank !! "X-Forwarded-For" = Some [" , 10.0.0.1"])
    by (vm_compute; reflexivity).
  split_and!; [exact Hheader|by vm_compute|].
  pose proof (getRemoteAddr_forwarded_entry Cases.req_blank " , 10.0.0.1" [] Hheader
                ltac:(discriminate)) as (_ & Hcomma & _).
  exact Hcomma.
Defined.

Lemma forwarding_log_shows_eight_bytes_witness :
  SharedSecret Sample.wrapper_plain = Some Sample.secret
  ∧ (8 ≤ length Sample.secret)%nat
  ∧ logs (trace_of (run (processC2SWrapper (ProtoLib0 := Sample.codec)
                           (Some Sample.wrapper_plain) (Some Sample.observed)) Sample.w0))
    = [LogForwarding "2a2a2a2a2a2a2a2a" API].
Proof.
  assert (Hlen : (8 ≤ length Sample.secret)%nat) by (vm_compute; lia).
  split_and!; [reflexivity|exact Hlen|].
  pose proof (@forwarding_log_shows_eight_bytes _ Sample.codec Sample.wrapper_plain
                Sample.secret (Some Sample.observed) Sample.w0 eq_refl Hlen) as [Hlog _].
  exact Hlog.
Defined.

Lemma processC2SWrapper_idempotent_witness :
  GetRegistrationSource (Some Sample.wrapper_detector) ≠ Unspecified
  ∧ outboundWrapper (Some (outboundWrapper (Some Sample.wrapper_detector) (Some Sample.observed)))
      (Some Sample.observed)
    = outboundWrapper (Some Sample.wrapper_detector) (Some Sample.observed).
Proof.
  assert (Hsrc : GetRegistrationSource (Some Sample.wrapper_detector) ≠ Unspecified)
    by discriminate.
  split; [exact Hsrc|].
  pose proof (@processC2SWrapper_idempotent _ Sample.codec Sample.wrapper_detector
                (Some Sample.observed) Sample.w0 (or_intror Hsrc) ltac:(by vm_compute))
    as [Hsame _].
  exact Hsame.
Defined.

Lemma register_while_locked_witness :
  mutex Cases.w_locked = true
  ∧ outcome_of (run (register (ProtoLib0 := Sample.codec) (H := GoNet.lib)
                       (mkServer sendToZMQ) Sample.req_ok) Cases.w_locked) = Deadlocked
  ∧ sent (trace_of (run (register (ProtoLib0 := Sample.codec) (H := GoNet.lib)
                           (mkServer sendToZMQ) Sample.req_ok) Cases.w_locked)) = [].
Proof.
  assert (Hheld : mutex Cases.w_locked = true) by (vm_compute; reflexivity).
  split_and!; [exact Hheld|vm_compute; reflexivity|].
  pose proof (@register_while_locked _ Sample.codec GoNet.lib Sample.req_ok Cases.w_locked Hheld)
    as (_ & Hsent & _).
  exact Hsent.
Defined.

Lemma register_sends_at_most_once_witness :
  mutex Sample.w0 = false
  ∧ world_of (run (register (ProtoLib0 := Sample.codec) (H := GoNet.lib)
                     (mkServer sendToZMQ) Sample.req_ok) Sample.w0) = Sample.w0
  ∧ length (sent (trace_of (run (register (ProtoLib0 := Sample.codec) (H := GoNet.lib)
                                   (mkServer sendToZMQ) Sample.req_ok) Sample.w0))) = 1%nat.
Proof.
  pose proof (@register_sends_at_most_once _ Sample.codec GoNet.lib Sample.req_ok Sample.w0
                eq_refl) as (Hworld & _).
  split_and!; [reflexivity|exact Hworld|vm_compute; reflexivity].
Defined.

Lemma register_logs_hide_client_address_witness :
  logClientIP (cfg Sample.w0) = false
  ∧ getRemoteAddr Sample.req_ok ≠ getRemoteAddr Cases.req_elsewhere
  ∧ logs (trace_of (run (register (ProtoLib0 := Sample.codec) (H := GoNet.lib)
                           (mkServer sendToZMQ) Sample.req_ok) Sample.w0))
    = logs (trace_of (run (register (ProtoLib0 := Sample.codec) (H := GoNet.lib)
                             (mkServer sendToZMQ) Cases.req_elsewhere) Sample.w0)).
Proof.
  split_and!; [reflexivity|by vm_compute|].
  pose proof (@register_logs_hide_client_address _ Sample.codec GoNet.lib
                Sample.req_ok Cases.req_elsewhere Sample.w0
                eq_refl eq_refl eq_refl eq_refl eq_refl
                (λ _ _ _, eq_refl) (λ _ _, eq_refl)) as [Hlogs _].
  exact Hlogs.
Defined.

Lemma loadNewConfig_bad_config_witness :
  mutex Cases.w_bad_config = false
  ∧ outcome_of (run loadNewConfig Cases.w_bad_config) = Exited 1
  ∧ auth (world_of (run loadNewConfig Cases.w_bad_config)) = auth Sample.started
  ∧ Sample.station_key_old
    ∈ allowed_keys "*" (auth (world_of (run loadNewConfig Cases.w_bad_config))).
Proof.
  assert (Hfree : mutex Cases.w_bad_config = false) by (vm_compute; reflexivity).
  pose proof (loadNewConfig_bad_config Cases.w_bad_config (cfg Sample.started)
                (TomlError "expected key separator") Hfree ltac:(vm_compute; reflexivity))
    as (Hrun & Hauth & _).
  split_and!; [exact Hfree|by rewrite Hrun|exact Hauth|by vm_compute].
Defined.

Lemma reload_installs_curve_witness :
  mutex Cases.w_rotated = false
  ∧ outcome_of (run loadNewConfig Cases.w_rotated) = Returned tt
  ∧ ∃ data,
      fs (env Cases.w_rotated) !! "/var/lib/conjure/privkey" = Some data
      ∧ sock (world_of (run loadNewConfig Cases.w_rotated))
        = mkSocket (Some "*") true (Some (Z85encode (take 32 (arr data)))).
Proof.
  assert (Hfree : mutex Cases.w_rotated = false) by (vm_compute; reflexivity).
  assert (Hrun : run loadNewConfig Cases.w_rotated
                 = (Returned tt, world_of (run loadNewConfig Cases.w_rotated),
                    trace_of (run loadNewConfig Cases.w_rotated)))
    by (vm_compute; reflexivity).
  split_and!; [exact Hfree|by vm_compute|].
  destruct (reload_installs_curve Cases.w_rotated _ _ Hfree ltac:(by intros ?) Hrun
              ltac:(vm_compute; reflexivity))
    as (data & Hfile & _ & _ & _ & _ & Hsock).
  exists data. split; [exact Hfile|exact Hsock].
Defined.

Lemma reload_without_curve_witness :
  mutex Cases.w_switched_off = false
  ∧ outcome_of (run loadNewConfig Cases.w_switched_off) = Returned tt
  ∧ curve_server (sock Sample.started) = true
  ∧ sock (world_of (run loadNewConfig Cases.w_switched_off)) = sock Sample.started
  ∧ auth_init (auth (world_of (run loadNewConfig Cases.w_switched_off))) = false.
Proof.
  assert (Hfree : mutex Cases.w_switched_off = false) by (vm_compute; reflexivity).
  assert (Hrun : run loadNewConfig Cases.w_switched_off
                 = (Returned tt, world_of (run loadNewConfig Cases.w_switched_off),
                    trace_of (run loadNewConfig Cases.w_switched_off)))
    by (vm_compute; reflexivity).
  pose proof (reload_without_curve Cases.w_switched_off _ _ Hfree Hrun
                ltac:(by vm_compute)) as (Hsock & _ & Hinit & _).
  split_and!; [exact Hfree|by vm_compute|by vm_compute|exact Hsock|exact Hinit].
Defined.


Lemma reload_twice_same_witness :
  mutex Cases.w_rotated = false
  ∧ run loadNewConfig (world_of (run loadNewConfig Cases.w_rotated))
    = (Returned tt, world_of (run loadNewConfig Cases.w_rotated),
       trace_of (run loadNewConfig Cases.w_rotated)).
Proof.
  assert (Hfree : mutex Cases.w_rotated = false) by (vm_compute; reflexivity).
  assert (Hrun : run loadNewConfig Cases.w_rotated
                 = (Returned tt, world_of (run loadNewConfig Cases.w_rotated),
                    trace_of (run loadNewConfig Cases.w_rotated)))
    by (vm_compute; reflexivity).
  split; [exact Hfree|].
  exact (reload_twice_same Cases.w_rotated _ _ Hfree ltac:(by intros ?) Hrun
           ltac:(vm_compute; reflexivity)).
Defined.

Lemma no_deadlock_witness :
  mutex Sample.started = false
  ∧ halted (fire 0 (fire 1 Sample.serving)) = false
  ∧ holder_after None (history (fire 0 (fire 1 Sample.serving))) = Some 1%nat
  ∧ ¬ enabled 0 (schedule [1; 0; 0; 0]%nat Sample.serving)
  ∧ enabled 1 (fire 0 (fire 1 Sample.serving)).
Proof.
  assert (Hrun : halted (fire 0 (fire 1 Sample.serving)) = false) by (vm_compute; reflexivity).
  assert (Hholder : holder_after None (history (fire 0 (fire 1 Sample.serving))) = Some 1%nat)
    by (vm_compute; reflexivity).
  pose proof (@no_deadlock _ Sample.codec GoNet.lib Sample.started
                [Handler Sample.req_ok; Reloader 1] (fire 0 (fire 1 Sample.serving))
                eq_refl (schedule_rtc [1; 0]%nat Sample.serving) Hrun) as [Hheld _].
  split_and!; [reflexivity|exact Hrun|exact Hholder| |exact (Hheld _ Hholder)].
  vm_compute. intros H. by apply H.
Defined.

Lemma requests_never_stop_the_process_witness :
  mutex Sample.started = false
  ∧ length (history (schedule Cases.turns Cases.busy)) = 9%nat
  ∧ halted (schedule Cases.turns Cases.busy) = false.
Proof.
  split_and!; [reflexivity|vm_compute; reflexivity|].
  exact (@requests_never_stop_the_process _ Sample.codec GoNet.lib Sample.started
           [Sample.req_ok; Sample.req_weak] (schedule Cases.turns Cases.busy)
           eq_refl (schedule_rtc Cases.turns Cases.busy)).
Defined.

Lemma clientAddrBytesOf_cases_witness :
  (∀ s l, GoNet.ParseIP s = Some l → length l = 16%nat)
  ∧ ((∃ l, clientAddrBytesOf (H := GoNet.lib) "203.0.113.5:4711" = Some l ∧ length l = 16%nat)
     ∨ (∃ host port, GoNet.SplitHostPort "203.0.113.5:4711" = (host, port, None) ∧ host ≠ ""
                     ∧ GoNet.ParseIP host = None
                     ∧ clientAddrBytesOf (H := GoNet.lib) "203.0.113.5:4711" = None)).
Proof.
  split; [exact GoNet_ParseIP_16|].
  exact (@clientAddrBytesOf_cases GoNet.lib "203.0.113.5:4711" GoNet_ParseIP_16).
Defined.

Lemma register_trusts_forwarded_header_witness :
  RemoteAddr Sample.req_ok ≠ RemoteAddr Cases.req_other_peer
  ∧ run (register (ProtoLib0 := Sample.codec) (H := GoNet.lib)
           (mkServer sendToZMQ) Sample.req_ok) Sample.w0
    = run (register (ProtoLib0 := Sample.codec) (H := GoNet.lib)
             (mkServer sendToZMQ) Cases.req_other_peer) Sample.w0.
Proof.
  split; [by vm_compute|].
  exact (@register_trusts_forwarded_header _ Sample.codec GoNet.lib (mkServer sendToZMQ)
           Sample.req_ok Cases.req_other_peer Sample.w0 "203.0.113.5" [] ["10.1.1.1"]
           ltac:(vm_compute; reflexivity) ltac:(vm_compute; reflexivity)
           ltac:(discriminate) eq_refl ltac:(vm_compute; reflexivity) eq_refl).
Defined.
